(** * Temperature profile plotter: a shallow embedding of [app.py]

    The program downloads one text log per configured meter/sensor pair,
    reads it with pandas ([process_file]), and serves a single Dash callback
    ([update_table_and_plot]) that either appends a row to the series table,
    builds one plot trace per row, or reports temperature extrema.

    Modelling conventions.
    - A Python exception is a value of [exception]; code that may raise
      returns a [result].
    - A pandas missing value (NaN in a float column, NaT in a datetime
      column, NaN in an object column) is [None].
    - A number of a frame is a rational or an infinity ([Number.t]); the
      arithmetic of line 23 is float64 arithmetic: every operation rounds
      its exact result to the nearest double, ties to even ([Float64.fl],
      exponent range unbounded).
    - A timestamp is its number of seconds since the epoch and a time delta
      a whole number of seconds: the format [%d-%m-%y %H:%M:%S] has no
      fraction of a second, and sums of such deltas are exact in float64.
    - The scanners that pandas and plotly bring with them are arguments of
      the model ([Lib.t]): the csv tokenizer, the conversion of a field to a
      number by [read_csv] and by [pd.to_numeric], the matching of a string
      against the datetime format, and the validation of a color.  Each
      converts a field on its own.  Every theorem holds for all of them;
      [Reference.lib] is the one that the examples run. *)

From Stdlib Require Import List String Ascii ZArith QArith Qround Qabs Qpower.
From Stdlib Require Import Bool Lia Lqa Sorted.
Import ListNotations.

Local Open Scope string_scope.
Local Open Scope Z_scope.
Local Open Scope list_scope.

(* ================================================================== *)
(** ** Exceptions and results *)

Inductive exception : Type :=
| RequestException                       (* requests.get: no response *)
| HTTPError (status : Z)                 (* response.raise_for_status() *)
| ParserError (expected : nat) (saw : nat)
                                         (* pandas.errors.ParserError:
                                            Expected n fields in line k, saw m *)
| ParserError_tokenizing (msg : string)  (* pandas.errors.ParserError raised
                                            by the tokenizer on the text *)
| ValueError_to_numeric (s : string)     (* pd.to_numeric: unable to parse *)
| TypeError_add                          (* Series + str on a non-str column *)
| ValueError_to_datetime (s : string)    (* pd.to_datetime: format mismatch *)
| ValueError_color (v : option string)   (* go.Scatter: invalid line color *)
| IndexError.                            (* .iloc[0] on an empty selection *)

Inductive result (A : Type) : Type :=
| Ok (a : A)
| Raise (e : exception).

Arguments Ok {A} a.
Arguments Raise {A} e.

Definition bind {A B : Type} (m : result A) (k : A -> result B) : result B :=
  match m with
  | Ok a => k a
  | Raise e => Raise e
  end.

Notation "x <- m ;; k" := (bind m (fun x => k))
  (at level 61, m at next level, right associativity).
Notation "' p <- m ;; k" := (bind m (fun x => match x with p => k end))
  (at level 61, p pattern, m at next level, right associativity).

(** Apply a raising function to every element, left to right, stopping at
    the first exception. *)
Fixpoint mapM {A B : Type} (f : A -> result B) (l : list A) : result (list B) :=
  match l with
  | [] => Ok []
  | a :: t => b <- f a ;; bs <- mapM f t ;; Ok (b :: bs)
  end.

(* ================================================================== *)
(** ** Python values *)

Module Py.

(** A value that is either [None] or a [str] (the Dash input states). *)
Definition value := option string.

(** Truthiness: [None] and the empty string are falsy. *)
Definition truthy (v : value) : bool :=
  match v with
  | None => false
  | Some s => negb (String.eqb s "")
  end.

(** [str(v)] as an f-string interpolates it. *)
Definition str (v : value) : string :=
  match v with
  | None => "None"
  | Some s => s
  end.

(** [s.split(sep)] for a separator that is one of the characters
    accepted by [sep]. *)
Fixpoint split_by (sep : ascii -> bool) (s : string) : list string :=
  match s with
  | EmptyString => [EmptyString]
  | String c s' =>
      if sep c then EmptyString :: split_by sep s'
      else match split_by sep s' with
           | [] => [String c EmptyString]
           | f :: fs => String c f :: fs
           end
  end.

Definition split (sep : ascii) (s : string) : list string :=
  split_by (Ascii.eqb sep) s.

End Py.

(* ================================================================== *)
(** ** Numbers *)

(** The values of a float64 or int64 column that are not NaN. *)
Module Number.

Inductive t : Type :=
| NegInf
| Finite (q : Q)
| PosInf.

Definition leb (a b : t) : bool :=
  match a, b with
  | NegInf, _ => true
  | _, PosInf => true
  | Finite x, Finite y => Qle_bool x y
  | _, _ => false
  end.

Definition eqb (a b : t) : bool :=
  match a, b with
  | NegInf, NegInf => true
  | PosInf, PosInf => true
  | Finite x, Finite y => Qeq_bool x y
  | _, _ => false
  end.

Definition le (a b : t) : Prop := leb a b = true.

Definition eq (a b : t) : Prop := eqb a b = true.

(** [True] and [False] as numbers. *)
Definition of_bool (b : bool) : t := Finite (if b then 1 else 0)%Q.

End Number.

(** Float64 arithmetic on exact values. *)
Module Float64.

(** [np.rint]: round to the nearest integer, ties to even. *)
Definition rint (x : Q) : Z :=
  let f := Qfloor x in
  match Qcompare (x - inject_Z f) (1 # 2) with
  | Lt => f
  | Gt => f + 1
  | Eq => if Z.even f then f else f + 1
  end.

(** The binary exponent of a positive rational [x]: the [e] with
    [2^e <= x < 2^(e+1)]. *)
Definition ilog2 (x : Q) : Z :=
  let d := Z.log2 (Qnum x) - Z.log2 (Zpos (Qden x)) in
  if Qle_bool (2 ^ d) x then d else d - 1.

(** The double nearest to a positive rational: its significand has 53
    bits. *)
Definition nearest (x : Q) : Q :=
  let e := ilog2 x - 52 in
  (inject_Z (rint (x / 2 ^ e)) * 2 ^ e)%Q.

(** The double nearest to [x], ties to even. *)
Definition fl (x : Q) : Q :=
  match Qcompare x 0 with
  | Eq => 0%Q
  | Gt => Qred (nearest x)
  | Lt => Qred (- nearest (- x))
  end.

(** Half the distance between 1 and the next double. *)
Definition unit_roundoff : Q := 1 # 9007199254740992.

End Float64.

(* ================================================================== *)
(** ** The scanners of pandas and plotly *)

Module Lib.

Record t : Type := {
  (** The csv tokenizer under [sep=" "]: the lines it completed, each a
      list of fields, and the message of the error it stopped with, if
      any. *)
  tokenize : string -> list (list string) * option string;
  (** The number that [read_csv] reads in a field, if it reads one. *)
  read_number : string -> option Number.t;
  (** The number that [pd.to_numeric] reads in a string: [Some None] is
      NaN, [None] is a string it is unable to parse. *)
  to_number : string -> option (option Number.t);
  (** The timestamp of a string that matches ['%d-%m-%y %H:%M:%S']:
      [Some None] is NaT, [None] is a string that does not match. *)
  strptime : string -> option (option Z);
  (** Whether plotly accepts the value as a color. *)
  valid_color : Py.value -> bool
}.

End Lib.

(* ================================================================== *)
(** ** The pandas operations that [process_file] and the summary use *)

Module Pandas.

(** A field as the tokenizer leaves it: [None] is a missing value. *)
Definition cell := option string.

(** The strings that [read_csv] reads as missing by default. *)
Definition STR_NA_VALUES : list string :=
  [ ""; "#N/A"; "#N/A N/A"; "#NA"; "-1.#IND"; "-1.#QNAN"; "-NaN"; "-nan";
    "1.#IND"; "1.#QNAN"; "<NA>"; "N/A"; "NA"; "NULL"; "NaN"; "None";
    "n/a"; "nan"; "null" ].

Definition is_na (s : string) : bool := existsb (String.eqb s) STR_NA_VALUES.

Definition to_cell (s : string) : cell := if is_na s then None else Some s.

(** The strings that [read_csv] reads as booleans by default. *)
Definition true_values : list string := ["True"; "TRUE"; "true"].
Definition false_values : list string := ["False"; "FALSE"; "false"].

Definition to_bool (s : string) : option bool :=
  if existsb (String.eqb s) true_values then Some true
  else if existsb (String.eqb s) false_values then Some false
  else None.

(** A column of a frame: float64/int64 ([NumCol]), booleans, with NaN
    where a value is missing ([BoolCol]), or object ([ObjCol], the strings
    as they were read). *)
Inductive column : Type :=
| NumCol (v : list (option Number.t))
| BoolCol (v : list (option bool))
| ObjCol (v : list cell).

Definition names : list string := ["ID"; "Date"; "Time"; "Temp"; "Humidity"].

(** A line with fewer fields than expected gets missing trailing fields. *)
Definition pad (width : nat) (l : list cell) : list cell :=
  l ++ repeat None (width - List.length l)%nat.

(** The first line after the first that has more fields than expected. *)
Fixpoint first_bad (width : nat) (rest : list (list string)) : option exception :=
  match rest with
  | [] => None
  | r :: t =>
      if (width <? List.length r)%nat then Some (ParserError width (List.length r))
      else first_bad width t
  end.

(** The number of fields expected of the lines after the first: the larger
    of the number of [names] and the number of fields of the first line. *)
Definition expected_fields (lines : list (list string)) : nat :=
  match lines with
  | [] => List.length names
  | first :: _ => Nat.max (List.length names) (List.length first)
  end.

(** The table read from the text: one row of five cells per line.  A line
    after the first with too many fields is an error, raised before the
    error that stopped the tokenizer; when the first line is longer than
    [names], the leading fields are the index and are not columns. *)
Definition read_table (lib : Lib.t) (text : string) : result (list (list cell)) :=
  let '(lines, error) := Lib.tokenize lib text in
  let width := expected_fields lines in
  match first_bad width (tl lines) with
  | Some e => Raise e
  | None =>
      match error with
      | Some msg => Raise (ParserError_tokenizing msg)
      | None =>
          Ok (map (fun r => skipn (width - List.length names)%nat
                                  (pad width (map to_cell r)))
                  lines)
      end
  end.

Definition numeric_cell (lib : Lib.t) (c : cell) : bool :=
  match c with
  | None => true
  | Some s => match Lib.read_number lib s with Some _ => true | None => false end
  end.

Definition cell_value (lib : Lib.t) (c : cell) : option Number.t :=
  match c with
  | None => None
  | Some s => Lib.read_number lib s
  end.

Definition bool_cell (c : cell) : bool :=
  match c with
  | None => true
  | Some s => match to_bool s with Some _ => true | None => false end
  end.

Definition cell_bool (c : cell) : option bool :=
  match c with
  | None => None
  | Some s => to_bool s
  end.

(** Type inference of [read_csv] for one column: numbers, then booleans,
    then strings. *)
Definition infer (lib : Lib.t) (cells : list cell) : column :=
  match cells with
  | [] => ObjCol []
  | _ => if forallb (numeric_cell lib) cells then NumCol (map (cell_value lib) cells)
         else if forallb bool_cell cells then BoolCol (map cell_bool cells)
         else ObjCol cells
  end.

Definition col (j : nat) (table : list (list cell)) : list cell :=
  map (fun r => nth j r None) table.

(** The frame as [read_csv] returns it. *)
Record RawFrame : Type := {
  raw_ID : column;
  raw_Date : column;
  raw_Time : column;
  raw_Temp : column;
  raw_Humidity : column
}.

Definition frame_of (lib : Lib.t) (table : list (list cell)) : RawFrame :=
  {| raw_ID := infer lib (col 0 table);
     raw_Date := infer lib (col 1 table);
     raw_Time := infer lib (col 2 table);
     raw_Temp := infer lib (col 3 table);
     raw_Humidity := infer lib (col 4 table) |}.

Definition read_csv (lib : Lib.t) (text : string) : result RawFrame :=
  table <- read_table lib text ;;
  Ok (frame_of lib table).

(** [pd.to_numeric] with its default [errors='raise']. *)
Definition to_numeric_cell (lib : Lib.t) (c : cell) : result (option Number.t) :=
  match c with
  | None => Ok None
  | Some s =>
      match Lib.to_number lib s with
      | Some v => Ok v
      | None => Raise (ValueError_to_numeric s)
      end
  end.

Definition to_numeric (lib : Lib.t) (c : column) : result (list (option Number.t)) :=
  match c with
  | NumCol v => Ok v
  | BoolCol v => Ok (map (option_map Number.of_bool) v)
  | ObjCol v => mapM (to_numeric_cell lib) v
  end.

(** [series + ' '] *)
Definition add_str (c : column) (s : string) : result (list cell) :=
  match c with
  | NumCol _ => Raise TypeError_add
  | BoolCol _ => Raise TypeError_add
  | ObjCol v => Ok (map (option_map (fun x => (x ++ s)%string)) v)
  end.

Definition both_present {A B : Type} (p : option A * option B) : bool :=
  match p with
  | (Some _, Some _) => true
  | _ => false
  end.

Definition cat_cells (p : cell * cell) : cell :=
  match p with
  | (Some x, Some y) => Some (x ++ y)%string
  | _ => None
  end.

(** [object series + series]: the operation is applied where both sides
    are present, the rest is missing. *)
Definition add_series (l : list cell) (c : column) : result (list cell) :=
  match c with
  | ObjCol r => Ok (map cat_cells (combine l r))
  | NumCol r =>
      if existsb both_present (combine l r) then Raise TypeError_add
      else Ok (map (fun _ => None) l)
  | BoolCol r =>
      if existsb both_present (combine l r) then Raise TypeError_add
      else Ok (map (fun _ => None) l)
  end.

Definition to_datetime_cell (lib : Lib.t) (c : cell) : result (option Z) :=
  match c with
  | None => Ok None
  | Some s =>
      match Lib.strptime lib s with
      | Some t => Ok t
      | None => Raise (ValueError_to_datetime s)
      end
  end.

(** [pd.to_datetime(series, format='%d-%m-%y %H:%M:%S')] *)
Definition to_datetime (lib : Lib.t) (l : list cell) : result (list (option Z)) :=
  mapM (to_datetime_cell lib) l.

(** Difference of two timestamps: missing when either is. *)
Definition sub (a b : option Z) : option Z :=
  match a, b with
  | Some x, Some y => Some (x - y)
  | _, _ => None
  end.

Fixpoint diff_from (prev : option Z) (l : list (option Z)) : list (option Z) :=
  match l with
  | [] => []
  | x :: t => sub x prev :: diff_from x t
  end.

(** [series.diff()]: the first entry is missing. *)
Definition diff (l : list (option Z)) : list (option Z) :=
  match l with
  | [] => []
  | x :: t => None :: diff_from x t
  end.

(** [series.fillna(v)] followed by [.dt.total_seconds()]. *)
Definition fillna (v : Z) (l : list (option Z)) : list Z :=
  map (fun o => match o with Some d => d | None => v end) l.

Fixpoint cumsum_from (acc : Z) (l : list Z) : list Z :=
  match l with
  | [] => []
  | x :: t => (acc + x) :: cumsum_from (acc + x) t
  end.

Definition cumsum (l : list Z) : list Z := cumsum_from 0 l.

(** [series / b] on float64 values. *)
Definition truediv (a b : Q) : Q := Float64.fl (a / b).

(** [series.round(decimals)]: numpy multiplies by the power of ten, rounds
    to the nearest integer and divides by the power of ten, in float64. *)
Definition round (x : Q) (decimals : nat) : Q :=
  let f := inject_Z (10 ^ Z.of_nat decimals) in
  Float64.fl (inject_Z (Float64.rint (Float64.fl (x * f))) / f).

(** [series.max()] and [series.min()]: missing values are skipped, the
    result is missing when no value is present. *)
Fixpoint max (l : list (option Number.t)) : option Number.t :=
  match l with
  | [] => None
  | None :: t => max t
  | Some x :: t =>
      match max t with
      | None => Some x
      | Some m => Some (if Number.leb m x then x else m)
      end
  end.

Fixpoint min (l : list (option Number.t)) : option Number.t :=
  match l with
  | [] => None
  | None :: t => min t
  | Some x :: t =>
      match min t with
      | None => Some x
      | Some m => Some (if Number.leb x m then x else m)
      end
  end.

(** [series == v]: a missing value equals nothing. *)
Definition eq (l : list (option Number.t)) (v : option Number.t) : list bool :=
  map (fun x => match x, v with
                | Some a, Some b => Number.eqb a b
                | _, _ => false
                end) l.

(** [df.loc[mask, column]] *)
Fixpoint loc {A : Type} (mask : list bool) (column : list A) : list A :=
  match mask, column with
  | b :: m, v :: t => if b then v :: loc m t else loc m t
  | _, _ => []
  end.

(** [series.iloc[0]] *)
Definition iloc0 {A : Type} (l : list A) : result A :=
  match l with
  | [] => Raise IndexError
  | x :: _ => Ok x
  end.

End Pandas.

(* ================================================================== *)
(** ** [app.py] *)

(** What [requests] hands back for a URL. *)
Record Response : Type := {
  status_code : Z;
  text : string
}.

(** [response.raise_for_status()]: client and server error statuses raise. *)
Definition raise_for_status (response : Response) : result unit :=
  let status := status_code response in
  if ((400 <=? status) && (status <? 500)) || ((500 <=? status) && (status <? 600))
  then Raise (HTTPError status)
  else Ok tt.

(** The frame that [process_file] returns, column by column.  The column
    ['Time'] is the field [Time_]. *)
Record DataFrame : Type := {
  ID : Pandas.column;
  Date : Pandas.column;
  Time_ : Pandas.column;
  Temp : list (option Number.t);
  Humidity : list (option Number.t);
  Datetime : list (option Z);
  Time_Diff : list Z;
  Cumulative_Time : list Z;
  Cumulative_Hours : list Q
}.

(** A row of the series table ([sensor-table.data]). *)
Module Row.
Record t : Type := {
  meter_id : Py.value;
  sensor_id : Py.value;
  legend : Py.value;
  color : Py.value
}.
End Row.

(** The three bytes that the source file has before the [C] of its
    temperature unit. *)
Definition degree : string := String "236" (String "167" (String "184" "")).

(** [go.Scatter(x=..., y=..., mode='lines', name=legend,
    line=dict(color=color), hovertemplate=...)] *)
Record Scatter : Type := {
  x : list Q;
  y : list (option Number.t);
  mode : string;
  name : Py.value;
  line_color : Py.value;
  hovertemplate : string
}.

(** [go.Layout(title=..., xaxis=dict(title=...), yaxis=dict(title=...), hovermode=...)] *)
Record Layout : Type := {
  title : string;
  xaxis_title : string;
  yaxis_title : string;
  hovermode : string
}.

(** The value on the [temperature-plot.figure] output: [{}] or
    [{"data": traces, "layout": layout}]. *)
Inductive figure : Type :=
| EmptyFigure
| Figure (data : list Scatter) (layout : Layout).

(** The two f-strings of the summary, by the values they interpolate. *)
Inductive temp_info : Type :=
| MaxTemp (temp : option Number.t) (time : option Z)
| MinTemp (temp : option Number.t) (time : option Z).

(** The value on the [summary-section.children] output: [""] or
    [html.Div([html.H4("Summary:"), html.P(max_temp_info), html.P(min_temp_info)])]. *)
Inductive children : Type :=
| EmptyText
| SummaryDiv (max_temp_info min_temp_info : option temp_info).

Definition file_url_of (meter_id sensor_id : Py.value) : string :=
  "https://fileserv.c-probe.in/" ++ Py.str meter_id ++ "_" ++ Py.str sensor_id ++ ".txt".

(** Lines 175-178: the extrema of one frame and the time of their first
    occurrence. *)
Definition extrema (df : DataFrame)
  : result (option Number.t * option Z * option Number.t * option Z) :=
  let max_temp := Pandas.max (Temp df) in
  max_temp_time <- Pandas.iloc0 (Pandas.loc (Pandas.eq (Temp df) max_temp) (Datetime df)) ;;
  let min_temp := Pandas.min (Temp df) in
  min_temp_time <- Pandas.iloc0 (Pandas.loc (Pandas.eq (Temp df) min_temp) (Datetime df)) ;;
  Ok (max_temp, max_temp_time, min_temp, min_temp_time).

Section App.

(** The scanners of the libraries. *)
Variable lib : Lib.t.

(** The network: the response obtained for a URL, if any. *)
Variable network : string -> option Response.

Definition requests_get (url : string) : result Response :=
  match network url with
  | Some response => Ok response
  | None => Raise RequestException
  end.

Definition process_file (file_url : string) : result DataFrame :=
  response <- requests_get file_url ;;
  _ <- raise_for_status response ;;
  df <- Pandas.read_csv lib (text response) ;;
  temp <- Pandas.to_numeric lib (Pandas.raw_Temp df) ;;
  humidity <- Pandas.to_numeric lib (Pandas.raw_Humidity df) ;;
  date_ <- Pandas.add_str (Pandas.raw_Date df) " " ;;
  date_time <- Pandas.add_series date_ (Pandas.raw_Time df) ;;
  datetime <- Pandas.to_datetime lib date_time ;;
  let time_diff := Pandas.fillna 0 (Pandas.diff datetime) in
  let cumulative_time := Pandas.cumsum time_diff in
  let cumulative_hours :=
    map (fun c => Pandas.round (Pandas.truediv (inject_Z c) 3600) 2) cumulative_time in
  Ok {| ID := Pandas.raw_ID df;
        Date := Pandas.raw_Date df;
        Time_ := Pandas.raw_Time df;
        Temp := temp;
        Humidity := humidity;
        Datetime := datetime;
        Time_Diff := time_diff;
        Cumulative_Time := cumulative_time;
        Cumulative_Hours := cumulative_hours |}.

(** Lines 144-153: [go.Scatter] validates its properties when it is
    built.  The x and y columns, the mode and the hover template are valid
    by construction and any string or [None] is a valid name; the color of
    the line comes from the table as it is, and an invalid one raises. *)
Definition trace_of (row : Row.t) (df : DataFrame) : result Scatter :=
  if Lib.valid_color lib (Row.color row) then
    Ok {| x := Cumulative_Hours df;
          y := Temp df;
          mode := "lines";
          name := Row.legend row;
          line_color := Row.color row;
          hovertemplate :=
            "<b>Cumulative Time: %{x} hours</b><br>" ++
            "Temperature: %{y}" ++ degree ++ "C<br>" ++
            "<extra></extra>" |}
  else Raise (ValueError_color (Row.color row)).

(** The loop of the plot branch, on the rows still to visit and the
    traces appended so far. *)
Fixpoint plot_loop (rows : list Row.t) (traces : list Scatter) : result (list Scatter) :=
  match rows with
  | [] => Ok traces
  | row :: rest =>
      let file_url := file_url_of (Row.meter_id row) (Row.sensor_id row) in
      df <- process_file file_url ;;
      trace <- trace_of row df ;;
      plot_loop rest (traces ++ [trace])
  end.

(** The loop of the summary branch, on the rows still to visit and the
    current [(max_temp_info, min_temp_info)]. *)
Fixpoint summary_loop (rows : list Row.t) (info : option temp_info * option temp_info)
  : result (option temp_info * option temp_info) :=
  match rows with
  | [] => Ok info
  | row :: rest =>
      let file_url := file_url_of (Row.meter_id row) (Row.sensor_id row) in
      df <- process_file file_url ;;
      '(max_temp, max_temp_time, min_temp, min_temp_time) <- extrema df ;;
      summary_loop rest (Some (MaxTemp max_temp max_temp_time),
                         Some (MinTemp min_temp min_temp_time))
  end.

(** The callback.  [triggered] lists the [prop_id]s of [ctx.triggered]. *)
Definition update_table_and_plot
    (triggered : list string)
    (update_clicks plot_clicks summary_clicks : Z)
    (meter_id sensor_id legend color : Py.value)
    (existing_data : list Row.t) (title : Py.value)
  : result (list Row.t * figure * children) :=
  match triggered with
  | [] => Ok (existing_data, EmptyFigure, EmptyText)
  | prop_id :: _ =>
      let trigger := hd "" (Py.split "." prop_id) in
      let updated_data := existing_data in
      let plot_figure := EmptyFigure in
      let summary_text := EmptyText in
      if String.eqb trigger "update-table" && (0 <? update_clicks) then
        if Py.truthy meter_id && Py.truthy sensor_id && Py.truthy legend then
          let new_row := {| Row.meter_id := meter_id;
                            Row.sensor_id := sensor_id;
                            Row.legend := legend;
                            Row.color := color |} in
          Ok (existing_data ++ [new_row], plot_figure, summary_text)
        else Ok (updated_data, plot_figure, summary_text)
      else if String.eqb trigger "plot-graph" && (0 <? plot_clicks) then
        traces <- plot_loop updated_data [] ;;
        let plot_title := if Py.truthy title then Py.str title else "Temperature Profile" in
        let layout := {| title := plot_title;
                         xaxis_title := "Cumulative Time (Hours)";
                         yaxis_title := "Temperature (" ++ degree ++ "C)";
                         hovermode := "closest" |} in
        Ok (updated_data, Figure traces layout, summary_text)
      else if String.eqb trigger "show-summary" && (0 <? summary_clicks) then
        '(max_temp_info, min_temp_info) <- summary_loop updated_data (None, None) ;;
        Ok (updated_data, plot_figure, SummaryDiv max_temp_info min_temp_info)
      else Ok (updated_data, plot_figure, summary_text)
  end.

End App.

(* ================================================================== *)
(** ** A reference library *)

(** One instance of the scanners, for the examples.  The tokenizer is
    the state machine of the C parser of pandas for [sep=" "] with the
    default quote character, on a text that is read in one piece and whose
    lines end in LF or CR LF.  The numerals are the decimal ones, rounded
    to the nearest double, and the spellings of infinity (and, for
    [pd.to_numeric], of NaN).  The colors are [None] and the hexadecimal
    ones; plotly accepts more. *)
Module Reference.

Definition LINE_FEED : ascii := "010".
Definition CARRIAGE_RETURN : ascii := "013".
Definition TAB : ascii := "009".
Definition QUOTE : ascii := "034".
Definition SPACE : ascii := " ".

Inductive state : Type :=
| START_RECORD
| WHITESPACE_LINE (tabs : string)
| START_FIELD
| IN_FIELD
| IN_QUOTED_FIELD
| QUOTE_IN_QUOTED_FIELD
| EAT_CRNL
| EAT_CRNL_NOP.

(** The tokenizer: its state, the field and the line it is building, and
    the lines it completed. *)
Record parser : Type := {
  st : state;
  field : string;
  line : list string;
  lines : list (list string)
}.

Definition goto (s : state) (p : parser) : parser :=
  {| st := s; field := field p; line := line p; lines := lines p |}.

Definition push_char (c : ascii) (p : parser) : parser :=
  {| st := st p; field := field p ++ String c ""; line := line p; lines := lines p |}.

Definition end_field (p : parser) : parser :=
  {| st := st p; field := ""; line := line p ++ [field p]; lines := lines p |}.

Definition end_line (p : parser) : parser :=
  {| st := st p; field := field p; line := []; lines := lines p ++ [line p] |}.

Definition in_field (c : ascii) (p : parser) : parser :=
  if Ascii.eqb c LINE_FEED then goto START_RECORD (end_line (end_field p))
  else if Ascii.eqb c CARRIAGE_RETURN then goto EAT_CRNL (end_field p)
  else if Ascii.eqb c SPACE then goto START_FIELD (end_field p)
  else goto IN_FIELD (push_char c p).

Definition start_field (c : ascii) (p : parser) : parser :=
  if Ascii.eqb c LINE_FEED then goto START_RECORD (end_line (end_field p))
  else if Ascii.eqb c CARRIAGE_RETURN then goto EAT_CRNL (end_field p)
  else if Ascii.eqb c QUOTE then goto IN_QUOTED_FIELD p
  else if Ascii.eqb c SPACE then goto START_FIELD (end_field p)
  else goto IN_FIELD (push_char c p).

(** A blank line is skipped; a line that starts with a tab may be a line
    of whitespace only. *)
Definition start_record (c : ascii) (p : parser) : parser :=
  if Ascii.eqb c LINE_FEED then goto START_RECORD p
  else if Ascii.eqb c CARRIAGE_RETURN then goto EAT_CRNL_NOP p
  else if Ascii.eqb c TAB then goto (WHITESPACE_LINE (String c "")) p
  else start_field c p.

(** A line of tabs only is skipped; at another character the tabs read
    so far start the first field. *)
Definition whitespace_line (tabs : string) (c : ascii) (p : parser) : parser :=
  if Ascii.eqb c LINE_FEED then goto START_RECORD p
  else if Ascii.eqb c CARRIAGE_RETURN then goto EAT_CRNL_NOP p
  else if Ascii.eqb c TAB then goto (WHITESPACE_LINE (tabs ++ String c "")) p
  else in_field c {| st := IN_FIELD; field := tabs; line := line p; lines := lines p |}.

Definition in_quoted_field (c : ascii) (p : parser) : parser :=
  if Ascii.eqb c QUOTE then goto QUOTE_IN_QUOTED_FIELD p
  else push_char c p.

Definition quote_in_quoted_field (c : ascii) (p : parser) : parser :=
  if Ascii.eqb c QUOTE then goto IN_QUOTED_FIELD (push_char c p)
  else if Ascii.eqb c SPACE then goto START_FIELD (end_field p)
  else if Ascii.eqb c LINE_FEED then goto START_RECORD (end_line (end_field p))
  else if Ascii.eqb c CARRIAGE_RETURN then goto EAT_CRNL (end_field p)
  else goto IN_FIELD (push_char c p).

Definition eat_crnl (c : ascii) (p : parser) : parser :=
  if Ascii.eqb c LINE_FEED then goto START_RECORD (end_line p)
  else start_record c (goto START_RECORD (end_line p)).

Definition eat_crnl_nop (c : ascii) (p : parser) : parser :=
  if Ascii.eqb c LINE_FEED || Ascii.eqb c SPACE then goto START_RECORD p
  else start_record c (goto START_RECORD p).

Definition step (c : ascii) (p : parser) : parser :=
  match st p with
  | START_RECORD => start_record c p
  | WHITESPACE_LINE tabs => whitespace_line tabs c p
  | START_FIELD => start_field c p
  | IN_FIELD => in_field c p
  | IN_QUOTED_FIELD => in_quoted_field c p
  | QUOTE_IN_QUOTED_FIELD => quote_in_quoted_field c p
  | EAT_CRNL => eat_crnl c p
  | EAT_CRNL_NOP => eat_crnl_nop c p
  end.

Fixpoint tokenize_bytes (s : string) (p : parser) : parser :=
  match s with
  | EmptyString => p
  | String c s' => tokenize_bytes s' (step c p)
  end.

Definition handle_eof (p : parser) : list (list string) * option string :=
  match st p with
  | START_RECORD | WHITESPACE_LINE _ | EAT_CRNL_NOP => (lines p, None)
  | IN_QUOTED_FIELD => (lines p, Some "EOF inside string")
  | IN_FIELD | START_FIELD | QUOTE_IN_QUOTED_FIELD =>
      (lines (end_line (end_field p)), None)
  | EAT_CRNL => (lines (end_line p), None)
  end.

Definition tokenize (text : string) : list (list string) * option string :=
  handle_eof (tokenize_bytes text
                {| st := START_RECORD; field := ""; line := []; lines := [] |}).

Definition digit_of (c : ascii) : option Z :=
  let n := Z.of_nat (nat_of_ascii c) in
  if (48 <=? n) && (n <=? 57) then Some (n - 48) else None.

(** Reads a run of decimal digits: the value accumulated on [acc], the
    number of digits read, and the rest of the string. *)
Fixpoint digits (s : string) (acc : Z) (n : nat) : Z * nat * string :=
  match s with
  | EmptyString => (acc, n, s)
  | String c s' =>
      match digit_of c with
      | Some d => digits s' (10 * acc + d) (S n)
      | None => (acc, n, s)
      end
  end.

Definition sign (s : string) : bool * string :=
  match s with
  | String "-" s' => (true, s')
  | String "+" s' => (false, s')
  | _ => (false, s)
  end.

Definition scale (m e : Z) : Q :=
  if 0 <=? e then inject_Z (m * 10 ^ e)
  else Qmake m (Pos.pow 10 (Z.to_pos (- e))).

Definition is_exp (c : ascii) : bool :=
  Ascii.eqb c "e" || Ascii.eqb c "E".

(** A decimal numeral: optional sign, digits with an optional point (at
    least one digit), optional exponent. *)
Definition lex_decimal (s : string) : option Q :=
  let '(neg, s1) := sign s in
  let '(ip, ni, s2) := digits s1 0 O in
  let '(m, nf, s3) :=
    match s2 with
    | String "." t => digits t ip O
    | _ => (ip, O, s2)
    end in
  if (ni + nf =? 0)%nat then None
  else
    let mant := if neg then - m else m in
    match s3 with
    | EmptyString => Some (scale mant (- Z.of_nat nf))
    | String c t =>
        if is_exp c then
          let '(eneg, t1) := sign t in
          let '(ev, ne, t2) := digits t1 0 O in
          if (ne =? 0)%nat then None
          else match t2 with
               | EmptyString =>
                   Some (scale mant ((if eneg then - ev else ev) - Z.of_nat nf))
               | _ => None
               end
        else None
    end.

Definition lower (c : ascii) : ascii :=
  let n := nat_of_ascii c in
  if (65 <=? n)%nat && (n <=? 90)%nat then ascii_of_nat (n + 32) else c.

Fixpoint lowercase (s : string) : string :=
  match s with
  | EmptyString => EmptyString
  | String c s' => String (lower c) (lowercase s')
  end.

Definition read_number (s : string) : option Number.t :=
  match lex_decimal s with
  | Some q => Some (Number.Finite (Float64.fl q))
  | None =>
      let l := lowercase s in
      if existsb (String.eqb l) ["inf"; "+inf"; "infinity"; "+infinity"]
      then Some Number.PosInf
      else if existsb (String.eqb l) ["-inf"; "-infinity"]
      then Some Number.NegInf
      else None
  end.

Definition to_number (s : string) : option (option Number.t) :=
  match read_number s with
  | Some v => Some (Some v)
  | None =>
      if existsb (String.eqb (lowercase s)) ["nan"; "+nan"; "-nan"]
      then Some None
      else None
  end.

(** An unsigned integer of [min_len] to [max_len] digits (the fields of a
    date or a time of day). *)
Definition lex_uint (min_len max_len : nat) (s : string) : option Z :=
  match digits s 0 O with
  | (v, n, EmptyString) =>
      if (min_len <=? n)%nat && (n <=? max_len)%nat then Some v else None
  | _ => None
  end.

Definition is_leap (y : Z) : bool :=
  ((y mod 4 =? 0) && negb (y mod 100 =? 0)) || (y mod 400 =? 0).

Definition days_in_month (y m : Z) : Z :=
  if m =? 2 then (if is_leap y then 29 else 28)
  else if (m =? 4) || (m =? 6) || (m =? 9) || (m =? 11) then 30
  else 31.

(** Days from 1970-01-01 to the civil date [y]-[m]-[d]. *)
Definition days_from_civil (y m d : Z) : Z :=
  let y' := if m <=? 2 then y - 1 else y in
  let era := y' / 400 in
  let yoe := y' - era * 400 in
  let doy := (153 * (if 2 <? m then m - 3 else m + 9) + 2) / 5 + d - 1 in
  let doe := yoe * 365 + yoe / 4 - yoe / 100 + doy in
  era * 146097 + doe - 719468.

(** One string against the format ['%d-%m-%y %H:%M:%S']: the timestamp in
    seconds since the epoch, for a date and a time that are written in
    digits and separated by one space.  [%S] accepts the seconds 60 and
    61, which run into the next minute. *)
Definition strptime (s : string) : option (option Z) :=
  match Py.split " " s with
  | [d; t] =>
      match Py.split "-" d, Py.split ":" t with
      | [dd; mm; yy], [HH; MM; SS] =>
          match lex_uint 1 2 dd, lex_uint 1 2 mm, lex_uint 2 2 yy,
                lex_uint 1 2 HH, lex_uint 1 2 MM, lex_uint 1 2 SS with
          | Some day, Some month, Some y2, Some h, Some mi, Some sec =>
              let year := if y2 <=? 68 then 2000 + y2 else 1900 + y2 in
              if (1 <=? month) && (month <=? 12) && (1 <=? day)
                 && (day <=? days_in_month year month)
                 && (h <=? 23) && (mi <=? 59) && (sec <=? 61)
              then Some (Some (days_from_civil year month day * 86400
                               + h * 3600 + mi * 60 + sec))
              else None
          | _, _, _, _, _, _ => None
          end
      | _, _ => None
      end
  | _ => None
  end.

Definition is_hex (c : ascii) : bool :=
  let n := nat_of_ascii c in
  ((48 <=? n) && (n <=? 57) || (65 <=? n) && (n <=? 70) || (97 <=? n) && (n <=? 102))%nat.

Fixpoint all_hex (s : string) : bool :=
  match s with
  | EmptyString => true
  | String c s' => is_hex c && all_hex s'
  end.

(** [None] and [#rgb] or [#rrggbb]. *)
Definition valid_color (v : Py.value) : bool :=
  match v with
  | None => true
  | Some (String "#" h) =>
      all_hex h && ((String.length h =? 3)%nat || (String.length h =? 6)%nat)
  | Some _ => false
  end.

Definition lib : Lib.t :=
  {| Lib.tokenize := tokenize;
     Lib.read_number := read_number;
     Lib.to_number := to_number;
     Lib.strptime := strptime;
     Lib.valid_color := valid_color |}.

End Reference.

(* ================================================================== *)
(** ** Sample inputs *)

Definition LF : string := String "010" "".
Definition TAB : string := String "009" "".
Definition QUOTE : string := String "034" "".

(** The three-record log used as the running example. *)
Definition sample : string :=
  "S1 01-01-24 00:00:00 20.0 50.0" ++ LF ++
  "S1 01-01-24 01:00:00 25.0 55.0" ++ LF ++
  "S1 01-01-24 03:00:00 22.0 52.0".

(** A log whose second record has no date. *)
Definition sample_gap : string :=
  "S1 01-01-24 00:00:00 20.0 50.0" ++ LF ++
  "S1 NA 01:00:00 25.0 55.0" ++ LF ++
  "S1 01-01-24 03:00:00 22.0 52.0".

(** A log of one line with four fields. *)
Definition sample_four_fields : string := "S1 01-01-24 00:00:00 20.0".

(** A log of one record whose temperature is the missing-value marker. *)
Definition sample_nan : string := "S1 01-01-24 00:00:00 NaN 50.0".

(** A log whose second line has six fields. *)
Definition sample_six_fields : string :=
  "S1 01-01-24 00:00:00 20.0 50.0" ++ LF ++
  "S1 01-01-24 01:00:00 25.0 55.0 extra".

(** A log whose second temperature is not a numeral. *)
Definition sample_bad_temp : string :=
  "S1 01-01-24 00:00:00 20.0 50.0" ++ LF ++
  "S1 01-01-24 01:00:00 NaNvalue 55.0".

(** A second well-formed log, colder and hotter than [sample]. *)
Definition sample_wide : string :=
  "S2 02-01-24 00:00:00 10.0 40.0" ++ LF ++
  "S2 02-01-24 00:30:00 30.0 45.0".

(** A log whose second record comes 1962 seconds after the first. *)
Definition sample_1962 : string :=
  "S1 01-01-24 00:00:00 20.0 50.0" ++ LF ++
  "S1 01-01-24 00:32:42 21.0 50.0".

(** A log of one line with one field. *)
Definition sample_one_field : string := "S1".

Definition serve (body : string) : option Response :=
  Some {| status_code := 200; text := body |}.

(** A file server with a few logs; [M9_S9] answers 404 and anything else
    is unreachable. *)
Definition fileserv (url : string) : option Response :=
  if String.eqb url "https://fileserv.c-probe.in/M1_S1.txt" then serve sample
  else if String.eqb url "https://fileserv.c-probe.in/M2_S2.txt" then serve sample_wide
  else if String.eqb url "https://fileserv.c-probe.in/M3_S3.txt" then serve sample_gap
  else if String.eqb url "https://fileserv.c-probe.in/M4_S4.txt" then serve sample_four_fields
  else if String.eqb url "https://fileserv.c-probe.in/M5_S5.txt" then serve sample_nan
  else if String.eqb url "https://fileserv.c-probe.in/M6_S6.txt" then serve sample_six_fields
  else if String.eqb url "https://fileserv.c-probe.in/M7_S7.txt" then serve sample_bad_temp
  else if String.eqb url "https://fileserv.c-probe.in/M8_S8.txt" then serve ""
  else if String.eqb url "https://fileserv.c-probe.in/M9_S9.txt"
       then Some {| status_code := 404; text := "Not Found" |}
  else if String.eqb url "https://fileserv.c-probe.in/M10_S10.txt" then serve sample_1962
  else if String.eqb url "https://fileserv.c-probe.in/M11_S11.txt" then serve sample_one_field
  else None.

Definition series (meter sensor label : string) : Row.t :=
  {| Row.meter_id := Some meter;
     Row.sensor_id := Some sensor;
     Row.legend := Some label;
     Row.color := Some "#000000" |}.

(** The frame of the running example. *)
Definition sample_frame : DataFrame :=
  {| ID := Pandas.ObjCol [Some "S1"; Some "S1"; Some "S1"];
     Date := Pandas.ObjCol [Some "01-01-24"; Some "01-01-24"; Some "01-01-24"];
     Time_ := Pandas.ObjCol [Some "00:00:00"; Some "01:00:00"; Some "03:00:00"];
     Temp := [Some (Number.Finite 20); Some (Number.Finite 25); Some (Number.Finite 22)];
     Humidity := [Some (Number.Finite 50); Some (Number.Finite 55); Some (Number.Finite 52)];
     Datetime := [Some 1704067200; Some 1704070800; Some 1704078000];
     Time_Diff := [0; 3600; 7200];
     Cumulative_Time := [0; 3600; 10800];
     Cumulative_Hours := [0%Q; 1%Q; 3%Q] |}.

(** The trace of the running example under the legend [one]. *)
Definition sample_trace : Scatter :=
  {| x := Cumulative_Hours sample_frame;
     y := Temp sample_frame;
     mode := "lines";
     name := Some "one";
     line_color := Some "#000000";
     hovertemplate :=
       "<b>Cumulative Time: %{x} hours</b><br>Temperature: %{y}"
       ++ degree ++ "C<br><extra></extra>" |}.

(** The frame of the log whose second record comes 1962 seconds after the
    first: 0.545 hours, recorded as the double nearest to 0.55. *)
Definition frame_1962 : DataFrame :=
  {| ID := Pandas.ObjCol [Some "S1"; Some "S1"];
     Date := Pandas.ObjCol [Some "01-01-24"; Some "01-01-24"];
     Time_ := Pandas.ObjCol [Some "00:00:00"; Some "00:32:42"];
     Temp := [Some (Number.Finite 20); Some (Number.Finite 21)];
     Humidity := [Some (Number.Finite 50); Some (Number.Finite 50)];
     Datetime := [Some 1704067200; Some 1704069162];
     Time_Diff := [0; 1962];
     Cumulative_Time := [0; 1962];
     Cumulative_Hours := [0%Q; 2476979795053773 # 4503599627370496] |}.

(** The frame read from an empty log. *)
Definition empty_frame : DataFrame :=
  {| ID := Pandas.ObjCol [];
     Date := Pandas.ObjCol [];
     Time_ := Pandas.ObjCol [];
     Temp := [];
     Humidity := [];
     Datetime := [];
     Time_Diff := [];
     Cumulative_Time := [];
     Cumulative_Hours := [] |}.


(* ================================================================== *)
(** ** Notions the statements use *)

(** A state value that holds a non-empty string. *)
Definition nonempty (v : Py.value) : Prop :=
  exists s, v = Some s /\ s <> "".

(** Retrieval of the text at [url] fails with [e]: no response, or a
    response whose status [raise_for_status] rejects. *)
Definition retrieval_fails (network : string -> option Response)
    (url : string) (e : exception) : Prop :=
  (network url = None /\ e = RequestException)
  \/ (exists response, network url = Some response
                       /\ raise_for_status response = Raise e).

Definition url_of (row : Row.t) : string :=
  file_url_of (Row.meter_id row) (Row.sensor_id row).

(** [tr] is the trace of [row]: its frame's hours and temperatures under
    the row's legend and color. *)
Definition traced (lib : Lib.t) (network : string -> option Response)
    (row : Row.t) (tr : Scatter) : Prop :=
  exists df, process_file lib network (url_of row) = Ok df
             /\ trace_of lib row df = Ok tr.

(** Strict order on timestamps: a missing timestamp is not ordered. *)
Definition before (a b : option Z) : Prop :=
  match a, b with
  | Some s, Some t => s < t
  | _, _ => False
  end.

Fixpoint sum (l : list Z) : Z :=
  match l with
  | [] => 0
  | v :: t => v + sum t
  end.

(** The elapsed seconds between two consecutive timestamps as the frame
    records them: the difference, or zero when either is missing. *)
Definition elapsed (cur prev : option Z) : Z :=
  match cur, prev with
  | Some s, Some t => s - t
  | _, _ => 0
  end.

(** A series is summarised when its file is processed and its extrema are
    found. *)
Definition summarised (lib : Lib.t) (network : string -> option Response)
    (row : Row.t) (info : option temp_info * option temp_info) : Prop :=
  exists df max_temp max_temp_time min_temp min_temp_time,
    process_file lib network (url_of row) = Ok df
    /\ extrema df = Ok (max_temp, max_temp_time, min_temp, min_temp_time)
    /\ info = (Some (MaxTemp max_temp max_temp_time),
               Some (MinTemp min_temp min_temp_time)).

(** The callback when the plot button fired. *)
Definition on_plot (lib : Lib.t) (network : string -> option Response)
    (more : list string)
    (update_clicks plot_clicks summary_clicks : Z)
    (meter_id sensor_id legend color graph_title : Py.value)
    (rows : list Row.t) : result (list Row.t * figure * children) :=
  update_table_and_plot lib network ("plot-graph.n_clicks" :: more)
    update_clicks plot_clicks summary_clicks
    meter_id sensor_id legend color rows graph_title.

(** The callback when the summary button fired. *)
Definition on_summary (lib : Lib.t) (network : string -> option Response)
    (more : list string)
    (update_clicks plot_clicks summary_clicks : Z)
    (meter_id sensor_id legend color graph_title : Py.value)
    (rows : list Row.t) : result (list Row.t * figure * children) :=
  update_table_and_plot lib network ("show-summary.n_clicks" :: more)
    update_clicks plot_clicks summary_clicks
    meter_id sensor_id legend color rows graph_title.

(** The layout of a figure titled by [graph_title]. *)
Definition layout_of (graph_title : Py.value) : Layout :=
  {| title := if Py.truthy graph_title then Py.str graph_title
              else "Temperature Profile";
     xaxis_title := "Cumulative Time (Hours)";
     yaxis_title := "Temperature (" ++ degree ++ "C)";
     hovermode := "closest" |}.

(** [t] is the time of the first record whose temperature equals [v]. *)
Definition first_at (temps : list (option Number.t)) (times : list (option Z))
    (v : Number.t) (t : option Z) : Prop :=
  exists i q,
    nth_error temps i = Some (Some q)
    /\ Number.eq q v
    /\ nth_error times i = Some t
    /\ forall j q', (j < i)%nat -> nth_error temps j = Some (Some q') -> ~ Number.eq q' v.

(** The number of entries of a column. *)
Definition column_length (c : Pandas.column) : nat :=
  match c with
  | Pandas.NumCol v => List.length v
  | Pandas.BoolCol v => List.length v
  | Pandas.ObjCol v => List.length v
  end.

(** The exceptions that the pandas calls of [process_file] raise. *)
Definition pandas_exception (e : exception) : Prop :=
  match e with
  | ParserError _ _ => True
  | ParserError_tokenizing _ => True
  | ValueError_to_numeric _ => True
  | TypeError_add => True
  | ValueError_to_datetime _ => True
  | _ => False
  end.


(** The timestamp [t] of a record is read from the cells of its date and
    of its time: missing when either is; otherwise the timestamp of the
    two strings joined by a space. *)
Definition stamps (lib : Lib.t) (date time : Pandas.cell) (t : option Z) : Prop :=
  match date, time with
  | Some d, Some h => Lib.strptime lib (d ++ " " ++ h) = Some t
  | _, _ => t = None
  end.

(** The string has no dot. *)
Fixpoint dotless (s : string) : Prop :=
  match s with
  | EmptyString => True
  | String c s' => Ascii.eqb "." c = false /\ dotless s'
  end.

(** The component id that the callback reads off [ctx.triggered]. *)
Definition trigger_of (triggered : list string) : option string :=
  match triggered with
  | [] => None
  | prop_id :: _ => Some (hd "" (Py.split "." prop_id))
  end.

(** A log whose date is written year first. *)
Definition sample_bad_date : string := "S1 2024-01-01 00:00:00 20.0 50.0".

(** A server that answers every URL with the same text. *)
Definition serve_only (body : string) (url : string) : option Response :=
  serve body.

(** Inverts a [bind] that returned. *)
Ltac bind_inv H :=
  match type of H with
  | bind ?m _ = Ok _ =>
      let a := fresh "a" in
      let Ha := fresh "Ha" in
      destruct m as [a|] eqn:Ha; [simpl in H | discriminate H]
  end.

(* ================================================================== *)
(** ** Results and loops *)

Lemma truthy_nonempty (v : Py.value) : Py.truthy v = true <-> nonempty v.
Proof.
  unfold nonempty, Py.truthy; destruct v as [s|]; split; intros H.
  - exists s; split; [reflexivity|].
    intros ->. discriminate.
  - destruct H as [s' [E N]]. inversion E; subst s'.
    destruct (String.eqb_spec s ""); [contradiction|reflexivity].
  - discriminate.
  - destruct H as [s' [E _]]. discriminate.
Qed.

Lemma retrieval_fails_process_file lib network url e :
  retrieval_fails network url e -> process_file lib network url = Raise e.
Proof.
  unfold process_file, requests_get.
  intros [[H ->]|[response [H R]]]; rewrite H; simpl.
  - reflexivity.
  - rewrite R. reflexivity.
Qed.

Lemma plot_loop_Ok lib network rows : forall acc traces,
  plot_loop lib network rows acc = Ok traces ->
  exists new, traces = acc ++ new /\ Forall2 (traced lib network) rows new.
Proof.
  induction rows as [|row rest IH]; simpl; intros acc traces H.
  - inversion H; subst. exists []. rewrite app_nil_r. auto.
  - bind_inv H. bind_inv H. apply IH in H. destruct H as [new [-> F]].
    exists (a0 :: new). split.
    + rewrite <- app_assoc. reflexivity.
    + constructor; [exists a; auto | exact F].
Qed.

Lemma plot_loop_In_Raise lib network rows : forall acc row e,
  In row rows -> process_file lib network (url_of row) = Raise e ->
  exists e', plot_loop lib network rows acc = Raise e'.
Proof.
  induction rows as [|r rest IH]; simpl; intros acc row e I H.
  - contradiction.
  - fold (url_of r). destruct I as [->|I].
    + rewrite H. simpl. eauto.
    + destruct (process_file lib network (url_of r)) as [df|e0]; simpl; [|eauto].
      destruct (trace_of lib r df) as [tr|e1]; simpl; eauto.
Qed.

Lemma plot_loop_first_Raise lib network pre : forall acc row post e,
  (forall r, In r pre -> exists tr, traced lib network r tr) ->
  process_file lib network (url_of row) = Raise e
  \/ (exists df, process_file lib network (url_of row) = Ok df
                 /\ trace_of lib row df = Raise e) ->
  plot_loop lib network (pre ++ row :: post) acc = Raise e.
Proof.
  induction pre as [|r pre IH]; simpl; intros acc row post e A H.
  - fold (url_of row). destruct H as [H|[df [H T]]]; rewrite H; simpl.
    + reflexivity.
    + rewrite T. reflexivity.
  - fold (url_of r). destruct (A r (or_introl eq_refl)) as [tr [df [E T]]].
    rewrite E. simpl. rewrite T. simpl. apply IH; auto.
Qed.

Lemma plot_loop_total lib network rows : forall acc,
  (forall r, In r rows -> exists tr, traced lib network r tr) ->
  exists traces, plot_loop lib network rows acc = Ok traces.
Proof.
  induction rows as [|r rest IH]; simpl; intros acc A.
  - eauto.
  - fold (url_of r). destruct (A r (or_introl eq_refl)) as [tr [df [E T]]].
    rewrite E. simpl. rewrite T. simpl. apply IH; auto.
Qed.

Lemma summary_loop_last lib network rows : forall last info out,
  summary_loop lib network (rows ++ [last]) info = Ok out ->
  summarised lib network last out.
Proof.
  induction rows as [|r rest IH]; simpl; intros last info out H.
  - bind_inv H. bind_inv H. destruct a0 as [[[M tM] m] tm].
    inversion H; subst. exists a, M, tM, m, tm. auto.
  - bind_inv H. bind_inv H. destruct a0 as [[[M tM] m] tm].
    eapply IH; eauto.
Qed.

Lemma summary_loop_total lib network rows : forall info,
  (forall r, In r rows -> exists out, summarised lib network r out) ->
  exists out, summary_loop lib network rows info = Ok out.
Proof.
  induction rows as [|r rest IH]; simpl; intros info A.
  - eauto.
  - fold (url_of r).
    destruct (A r (or_introl eq_refl)) as [out [df [M [tM [m [tm [E [X _]]]]]]]].
    rewrite E. simpl. rewrite X. simpl. apply IH; auto.
Qed.

Lemma summary_loop_first_Raise lib network pre : forall info row post e,
  (forall r, In r pre -> exists out, summarised lib network r out) ->
  process_file lib network (url_of row) = Raise e
  \/ (exists df, process_file lib network (url_of row) = Ok df
                 /\ extrema df = Raise e) ->
  summary_loop lib network (pre ++ row :: post) info = Raise e.
Proof.
  induction pre as [|r pre IH]; simpl; intros info row post e A H.
  - fold (url_of row). destruct H as [H|[df [H X]]]; rewrite H; simpl.
    + reflexivity.
    + rewrite X. reflexivity.
  - fold (url_of r).
    destruct (A r (or_introl eq_refl)) as [out [df [M [tM [m [tm [E [X _]]]]]]]].
    rewrite E. simpl. rewrite X. simpl. apply IH; auto.
Qed.

(* ================================================================== *)
(** ** The series table *)

(** C10.  An update-table click appends the row built from the four input
    states exactly when the meter id, the sensor id and the legend are all
    non-empty strings; otherwise the table is returned as it was.  The
    color takes no part in the test: it is arbitrary here, and may be
    [None] or empty. *)
Theorem update_table_appends_iff_filled :
  forall lib network more update_clicks plot_clicks summary_clicks
         meter_id sensor_id legend color existing_data title,
    0 < update_clicks ->
    exists data,
      update_table_and_plot lib network ("update-table.n_clicks" :: more)
        update_clicks plot_clicks summary_clicks
        meter_id sensor_id legend color existing_data title
      = Ok (data, EmptyFigure, EmptyText)
      /\ (nonempty meter_id /\ nonempty sensor_id /\ nonempty legend ->
          data = existing_data ++ [ {| Row.meter_id := meter_id;
                                       Row.sensor_id := sensor_id;
                                       Row.legend := legend;
                                       Row.color := color |} ])
      /\ (~ (nonempty meter_id /\ nonempty sensor_id /\ nonempty legend) ->
          data = existing_data).
Proof.
  intros lib network more u p sc m s l c data t Hu.
  unfold update_table_and_plot.
  change (hd "" (Py.split "." "update-table.n_clicks")) with "update-table".
  change (String.eqb "update-table" "update-table") with true.
  apply Z.ltb_lt in Hu. rewrite Hu. simpl andb.
  destruct (Py.truthy m && Py.truthy s && Py.truthy l) eqn:T.
  - eexists; split; [reflexivity|]. split; [auto|].
    intros N. exfalso. apply N.
    apply andb_prop in T. destruct T as [T Tl].
    apply andb_prop in T. destruct T as [Tm Ts].
    rewrite <- !truthy_nonempty. auto.
  - eexists; split; [reflexivity|]. split; [|auto].
    intros [Nm [Ns Nl]]. rewrite <- truthy_nonempty in Nm, Ns, Nl.
    rewrite Nm, Ns, Nl in T. discriminate.
Qed.

Lemma update_table_appends_iff_filled_witness :
  0 < 1 /\
  exists data,
    update_table_and_plot Reference.lib fileserv ["update-table.n_clicks"] 1 0 0
      (Some "M2") (Some "S2") (Some "two") (Some "") [series "M1" "S1" "one"] None
    = Ok (data, EmptyFigure, EmptyText)
    /\ (nonempty (Some "M2") /\ nonempty (Some "S2") /\ nonempty (Some "two") ->
        data = [series "M1" "S1" "one"]
               ++ [ {| Row.meter_id := Some "M2"; Row.sensor_id := Some "S2";
                       Row.legend := Some "two"; Row.color := Some "" |} ])
    /\ (~ (nonempty (Some "M2") /\ nonempty (Some "S2") /\ nonempty (Some "two")) ->
        data = [series "M1" "S1" "one"]).
Proof.
  split; [lia|].
  apply (update_table_appends_iff_filled Reference.lib fileserv [] 1 0 0
           (Some "M2") (Some "S2") (Some "two") (Some "")
           [series "M1" "S1" "one"] None).
  lia.
Defined.

(** C9, as the code has it.  An invocation triggered by the update-table
    action returns the empty figure and the empty summary text on its plot
    and summary outputs, whatever was rendered before: the previous figure
    is not among the inputs of the callback. *)
Theorem update_table_resets_plot :
  forall lib network more update_clicks plot_clicks summary_clicks
         meter_id sensor_id legend color existing_data title,
  exists data,
    update_table_and_plot lib network ("update-table.n_clicks" :: more)
      update_clicks plot_clicks summary_clicks
      meter_id sensor_id legend color existing_data title
    = Ok (data, EmptyFigure, EmptyText).
Proof.
  intros lib network more u p sc m s l c data t.
  unfold update_table_and_plot.
  change (hd "" (Py.split "." "update-table.n_clicks")) with "update-table".
  change (String.eqb "update-table" "update-table") with true.
  change (String.eqb "update-table" "plot-graph") with false.
  change (String.eqb "update-table" "show-summary") with false.
  destruct (0 <? u); simpl.
  - destruct (Py.truthy m && Py.truthy s && Py.truthy l); eauto.
  - eauto.
Qed.

(** C9, as stated, fails: after a plot of one series, an update-table
    click returns a figure different from the one just rendered. *)
Lemma update_table_clears_rendered_plot :
  exists data1 fig1 ch1 data2 fig2 ch2,
    update_table_and_plot Reference.lib fileserv ["plot-graph.n_clicks"] 0 1 0
      None None None (Some "#000000") [series "M1" "S1" "one"] None
    = Ok (data1, fig1, ch1)
    /\ update_table_and_plot Reference.lib fileserv ["update-table.n_clicks"] 1 1 0
         (Some "M2") (Some "S2") (Some "two") (Some "#000000") data1 None
       = Ok (data2, fig2, ch2)
    /\ fig1 <> EmptyFigure
    /\ fig2 <> fig1.
Proof.
  do 6 eexists. split; [vm_compute; reflexivity|].
  split; [vm_compute; reflexivity|].
  split; discriminate.
Qed.

(* ================================================================== *)
(** ** The plot and summary branches *)

Lemma on_plot_eq lib network more update_clicks plot_clicks summary_clicks
    meter_id sensor_id legend color graph_title rows :
  0 < plot_clicks ->
  on_plot lib network more update_clicks plot_clicks summary_clicks
    meter_id sensor_id legend color graph_title rows =
  (traces <- plot_loop lib network rows [] ;;
   Ok (rows, Figure traces (layout_of graph_title), EmptyText)).
Proof.
  intros H. apply Z.ltb_lt in H.
  unfold on_plot, update_table_and_plot.
  change (hd "" (Py.split "." "plot-graph.n_clicks")) with "plot-graph".
  change (String.eqb "plot-graph" "update-table") with false.
  change (String.eqb "plot-graph" "plot-graph") with true.
  rewrite H. reflexivity.
Qed.

Lemma on_summary_eq lib network more update_clicks plot_clicks summary_clicks
    meter_id sensor_id legend color graph_title rows :
  0 < summary_clicks ->
  on_summary lib network more update_clicks plot_clicks summary_clicks
    meter_id sensor_id legend color graph_title rows =
  ('(max_temp_info, min_temp_info) <- summary_loop lib network rows (None, None) ;;
   Ok (rows, EmptyFigure, SummaryDiv max_temp_info min_temp_info)).
Proof.
  intros H. apply Z.ltb_lt in H.
  unfold on_summary, update_table_and_plot.
  change (hd "" (Py.split "." "show-summary.n_clicks")) with "show-summary".
  change (String.eqb "show-summary" "update-table") with false.
  change (String.eqb "show-summary" "plot-graph") with false.
  change (String.eqb "show-summary" "show-summary") with true.
  rewrite H. reflexivity.
Qed.

(** C8.  On a plot request the traces of the returned figure are those of
    the table rows, one per row and in the order of the rows (first part).
    When the retrieval of some row's text fails, by a network error or by a
    status that [raise_for_status] rejects, the invocation raises and
    returns no figure (second part); the exception raised is the retrieval
    error of the first row that fails, the rows before it having been
    processed and traced (third part).  When every row is processed and
    traced the figure is returned (fourth part).  A row is traced when its
    file is processed and [go.Scatter] accepts its color; the first row
    whose file is processed and whose color is not accepted makes the
    invocation raise the error of [go.Scatter] (fifth part). *)
Theorem plot_traces_in_order_or_fails :
  forall lib network more update_clicks plot_clicks summary_clicks
         meter_id sensor_id legend color title rows,
    0 < plot_clicks ->
    (forall data fig ch,
        on_plot lib network more update_clicks plot_clicks summary_clicks
          meter_id sensor_id legend color title rows = Ok (data, fig, ch) ->
        exists traces layout,
          fig = Figure traces layout /\ Forall2 (traced lib network) rows traces)
    /\ (forall row e,
           In row rows -> retrieval_fails network (url_of row) e ->
           exists e',
             on_plot lib network more update_clicks plot_clicks summary_clicks
               meter_id sensor_id legend color title rows = Raise e')
    /\ (forall pre row post e,
           rows = pre ++ row :: post ->
           (forall r, In r pre -> exists tr, traced lib network r tr) ->
           retrieval_fails network (url_of row) e ->
           on_plot lib network more update_clicks plot_clicks summary_clicks
             meter_id sensor_id legend color title rows = Raise e)
    /\ ((forall r, In r rows -> exists tr, traced lib network r tr) ->
        exists traces layout,
          on_plot lib network more update_clicks plot_clicks summary_clicks
            meter_id sensor_id legend color title rows
          = Ok (rows, Figure traces layout, EmptyText))
    /\ (forall pre row post df,
           rows = pre ++ row :: post ->
           (forall r, In r pre -> exists tr, traced lib network r tr) ->
           process_file lib network (url_of row) = Ok df ->
           Lib.valid_color lib (Row.color row) = false ->
           on_plot lib network more update_clicks plot_clicks summary_clicks
             meter_id sensor_id legend color title rows
           = Raise (ValueError_color (Row.color row))).
Proof.
  intros lib network more u p sc m s l c t rows Hp.
  rewrite (on_plot_eq lib network more u p sc m s l c t rows Hp).
  repeat split.
  - intros data fig ch H. bind_inv H. inversion H; subst.
    apply plot_loop_Ok in Ha. destruct Ha as [new [-> F]].
    simpl. eauto.
  - intros row e I R. apply (retrieval_fails_process_file lib) in R.
    destruct (plot_loop_In_Raise lib network rows [] row e I R) as [e' E].
    rewrite E. simpl. eauto.
  - intros pre row post e -> A R. apply (retrieval_fails_process_file lib) in R.
    rewrite (plot_loop_first_Raise lib network pre [] row post e A (or_introl R)).
    reflexivity.
  - intros A. destruct (plot_loop_total lib network rows [] A) as [traces E].
    rewrite E. simpl. eauto.
  - intros pre row post df -> A P V.
    rewrite (plot_loop_first_Raise lib network pre [] row post
               (ValueError_color (Row.color row)) A).
    + reflexivity.
    + right. exists df. split; [exact P|].
      unfold trace_of. rewrite V. reflexivity.
Qed.

Lemma plot_traces_in_order_or_fails_witness :
  0 < 1
  /\ (exists traces layout,
        on_plot Reference.lib fileserv [] 0 1 0 None None None None None
          [series "M1" "S1" "one"; series "M2" "S2" "two"]
        = Ok ([series "M1" "S1" "one"; series "M2" "S2" "two"],
              Figure traces layout, EmptyText))
  /\ on_plot Reference.lib fileserv [] 0 1 0 None None None None None
       [series "M1" "S1" "one"; series "M9" "S9" "gone"; series "M2" "S2" "two"]
     = Raise (HTTPError 404).
Proof.
  split; [lia|]. split.
  - apply (plot_traces_in_order_or_fails Reference.lib fileserv [] 0 1 0
             None None None None None
             [series "M1" "S1" "one"; series "M2" "S2" "two"]); [lia|].
    intros r [<-|[<-|[]]]; eexists; eexists; split; vm_compute; reflexivity.
  - apply (proj1 (proj2 (proj2
             (plot_traces_in_order_or_fails Reference.lib fileserv [] 0 1 0
                None None None None None
                [series "M1" "S1" "one"; series "M9" "S9" "gone"; series "M2" "S2" "two"]
                ltac:(lia))))
             [series "M1" "S1" "one"] (series "M9" "S9" "gone")
             [series "M2" "S2" "two"] (HTTPError 404)).
    + reflexivity.
    + intros r [<-|[]]. eexists; eexists; split; vm_compute; reflexivity.
    + right. eexists. split; vm_compute; reflexivity.
Defined.

(** A failed retrieval in the middle of the table: the 404 of the second
    row is what the invocation raises, and the third row is never fetched. *)
Example plot_second_series_not_found :
  on_plot Reference.lib fileserv [] 0 1 0 None None None None None
    [series "M1" "S1" "one"; series "M9" "S9" "gone"; series "M2" "S2" "two"]
  = Raise (HTTPError 404).
Proof. vm_compute. reflexivity. Qed.

(** A row whose color is the empty string, as an update-table click may
    have appended it: its file is processed, and the plot request raises
    the error of [go.Scatter]. *)
Example plot_with_empty_color :
  on_plot Reference.lib fileserv [] 0 1 0 None None None None None
    [ {| Row.meter_id := Some "M1"; Row.sensor_id := Some "S1";
         Row.legend := Some "one"; Row.color := Some "" |} ]
  = Raise (ValueError_color (Some "")).
Proof. vm_compute. reflexivity. Qed.

(** C7.  On a summary request over the rows [rows ++ [last]], whatever
    the rows before the last are, a returned summary holds the maximum and
    minimum lines of the last row's series only (first part); and the
    summary is returned whenever every series can be summarised (second
    part). *)
Theorem summary_reports_last_series :
  forall lib network more update_clicks plot_clicks summary_clicks
         meter_id sensor_id legend color title rows last,
    0 < summary_clicks ->
    (forall data fig ch,
        on_summary lib network more update_clicks plot_clicks summary_clicks
          meter_id sensor_id legend color title (rows ++ [last]) = Ok (data, fig, ch) ->
        exists info,
          summarised lib network last info
          /\ ch = SummaryDiv (fst info) (snd info)
          /\ data = rows ++ [last] /\ fig = EmptyFigure)
    /\ ((forall r, In r (rows ++ [last]) -> exists out, summarised lib network r out) ->
        exists ch,
          on_summary lib network more update_clicks plot_clicks summary_clicks
            meter_id sensor_id legend color title (rows ++ [last])
          = Ok (rows ++ [last], EmptyFigure, ch)).
Proof.
  intros lib network more u p sc m s l c t rows last Hs.
  rewrite (on_summary_eq lib network more u p sc m s l c t (rows ++ [last]) Hs).
  split.
  - intros data fig ch H. bind_inv H. destruct a as [mx mn].
    inversion H; subst. apply summary_loop_last in Ha.
    exists (mx, mn). auto.
  - intros A. destruct (summary_loop_total lib network (rows ++ [last]) (None, None) A)
      as [[mx mn] E].
    rewrite E. simpl. eauto.
Qed.

Lemma summary_reports_last_series_witness :
  0 < 1 /\
  exists ch,
    on_summary Reference.lib fileserv [] 0 0 1 None None None None None
      ([series "M2" "S2" "two"] ++ [series "M1" "S1" "one"])
    = Ok ([series "M2" "S2" "two"] ++ [series "M1" "S1" "one"], EmptyFigure, ch).
Proof.
  split; [lia|].
  apply (summary_reports_last_series Reference.lib fileserv [] 0 0 1
           None None None None None
           [series "M2" "S2" "two"] (series "M1" "S1" "one")); [lia|].
  intros r [<-|[<-|[]]]; eexists; do 5 eexists;
    (split; [vm_compute; reflexivity|split; vm_compute; reflexivity]).
Defined.

(** Two series, the first reaching 30 and 10 degrees, the second 25 and
    20: the summary shows 25 and 20, the extrema of the second. *)
Example summary_of_two_series :
  on_summary Reference.lib fileserv [] 0 0 1 None None None None None
    [series "M2" "S2" "two"; series "M1" "S1" "one"]
  = Ok ([series "M2" "S2" "two"; series "M1" "S1" "one"], EmptyFigure,
        SummaryDiv (Some (MaxTemp (Some (Number.Finite 25)) (Some 1704070800)))
                   (Some (MinTemp (Some (Number.Finite 20)) (Some 1704067200)))).
Proof. vm_compute. reflexivity. Qed.

Lemma loc_eq_None {A : Type} (temps : list (option Number.t)) :
  forall column : list A,
  Pandas.loc (Pandas.eq temps None) column = [].
Proof.
  induction temps as [|c temps IH]; intros column; simpl.
  - reflexivity.
  - destruct column as [|v column]; [reflexivity|].
    destruct c; apply IH.
Qed.

(** C6, as the code has it.  The summary of a frame with no records
    raises the [IndexError] of the positional lookup [.iloc[0]], which
    finds no row holding the maximum; and a summary request raises it when
    the file of a row gives such a frame and the rows before it were
    summarised.  There is no test for an empty frame and no error of its
    own. *)
Theorem summary_of_empty_dataset :
  forall df,
    Temp df = [] ->
    extrema df = Raise IndexError
    /\ forall lib network more update_clicks plot_clicks summary_clicks
              meter_id sensor_id legend color title pre row post,
         0 < summary_clicks ->
         (forall r, In r pre -> exists out, summarised lib network r out) ->
         process_file lib network (url_of row) = Ok df ->
         on_summary lib network more update_clicks plot_clicks summary_clicks
           meter_id sensor_id legend color title (pre ++ row :: post)
         = Raise IndexError.
Proof.
  intros df H.
  assert (X : extrema df = Raise IndexError).
  { unfold extrema. rewrite H. reflexivity. }
  split; [exact X|].
  intros lib network more u p sc m s l c t pre row post Hs A P.
  rewrite (on_summary_eq lib network more u p sc m s l c t _ Hs).
  rewrite (summary_loop_first_Raise lib network pre (None, None) row post IndexError A).
  - reflexivity.
  - right. exists df. auto.
Qed.

Lemma summary_of_empty_dataset_witness :
  Temp empty_frame = []
  /\ extrema empty_frame = Raise IndexError
  /\ on_summary Reference.lib fileserv [] 0 0 1 None None None None None
       ([series "M1" "S1" "one"] ++ series "M8" "S8" "none" :: [])
     = Raise IndexError.
Proof.
  split; [reflexivity|].
  destruct (summary_of_empty_dataset empty_frame eq_refl) as [X R].
  split; [exact X|].
  apply (R Reference.lib fileserv [] 0 0 1 None None None None None
           [series "M1" "S1" "one"] (series "M8" "S8" "none") []).
  - lia.
  - intros r [<-|[]]. eexists; do 5 eexists.
    split; [vm_compute; reflexivity|split; vm_compute; reflexivity].
  - vm_compute. reflexivity.
Defined.

(** C6, as stated, fails: the error of an empty dataset is not
    distinguished.  The empty log gives a frame with no records and the log
    of one record without a temperature a frame with one record, and the
    summary of either raises the same [IndexError]. *)
Lemma empty_dataset_error_is_not_distinguished :
  exists df_empty df_one,
    process_file Reference.lib fileserv "https://fileserv.c-probe.in/M8_S8.txt"
    = Ok df_empty
    /\ Datetime df_empty = []
    /\ process_file Reference.lib fileserv "https://fileserv.c-probe.in/M5_S5.txt"
       = Ok df_one
    /\ Datetime df_one = [Some 1704067200]
    /\ extrema df_empty = Raise IndexError
    /\ extrema df_one = extrema df_empty.
Proof.
  do 2 eexists. split; [vm_compute; reflexivity|].
  split; [reflexivity|].
  split; [vm_compute; reflexivity|].
  repeat split.
Qed.

(** The empty log is read as the frame with no records, and a summary
    request over it raises. *)
Example summary_of_empty_log :
  process_file Reference.lib fileserv "https://fileserv.c-probe.in/M8_S8.txt"
  = Ok empty_frame
  /\ on_summary Reference.lib fileserv [] 0 0 1 None None None None None
       [series "M8" "S8" "none"]
     = Raise IndexError.
Proof. split; vm_compute; reflexivity. Qed.

(* ================================================================== *)
(** ** Reading the log *)

Lemma In_col (j : nat) (table : list (list Pandas.cell)) (r : list Pandas.cell) :
  In r table -> In (nth j r None) (Pandas.col j table).
Proof.
  intros H. unfold Pandas.col.
  apply (in_map (fun r => nth j r None)). exact H.
Qed.

Lemma col_length (j : nat) (table : list (list Pandas.cell)) :
  List.length (Pandas.col j table) = List.length table.
Proof. apply length_map. Qed.

Lemma infer_cases lib (cells : list Pandas.cell) :
  Pandas.infer lib cells = Pandas.ObjCol cells
  \/ (Pandas.infer lib cells = Pandas.NumCol (map (Pandas.cell_value lib) cells)
      /\ forallb (Pandas.numeric_cell lib) cells = true)
  \/ (Pandas.infer lib cells = Pandas.BoolCol (map Pandas.cell_bool cells)
      /\ forallb Pandas.bool_cell cells = true).
Proof.
  unfold Pandas.infer. destruct cells as [|c cells]; [left; reflexivity|].
  destruct (forallb (Pandas.numeric_cell lib) (c :: cells)); [auto|].
  destruct (forallb Pandas.bool_cell (c :: cells)); auto.
Qed.


Lemma mapM_to_numeric_cell_cases lib (v : list Pandas.cell) :
  (exists l, mapM (Pandas.to_numeric_cell lib) v = Ok l
             /\ forall s, In (Some s) v -> Lib.to_number lib s <> None)
  \/ (exists s, mapM (Pandas.to_numeric_cell lib) v = Raise (ValueError_to_numeric s)
                /\ In (Some s) v
                /\ Lib.to_number lib s = None).
Proof.
  induction v as [|c v IH]; simpl.
  - left. exists []. split; [reflexivity|]. intros s [].
  - destruct c as [s|]; simpl.
    + destruct (Lib.to_number lib s) as [q|] eqn:L; simpl.
      * destruct IH as [[l [E N]]|[s' [E [I N]]]]; rewrite E; simpl.
        -- left. eexists. split; [reflexivity|].
           intros s0 [H|H]; [inversion H; subst; congruence | auto].
        -- right. eauto.
      * right. eauto.
    + destruct IH as [[l [E N]]|[s' [E [I N]]]]; rewrite E; simpl.
      * left. eexists. split; [reflexivity|].
        intros s0 [H|H]; [discriminate | auto].
      * right. eauto.
Qed.


Lemma first_bad_some (width : nat) (rest : list (list string)) (r : list string) :
  In r rest -> (width < List.length r)%nat ->
  exists saw, Pandas.first_bad width rest = Some (ParserError width saw)
              /\ (width < saw)%nat.
Proof.
  induction rest as [|x rest IH]; simpl; intros I L.
  - contradiction.
  - destruct (width <? List.length x)%nat eqn:W.
    + apply Nat.ltb_lt in W. eauto.
    + destruct I as [->|I]; [|auto].
      apply Nat.ltb_lt in L. congruence.
Qed.

Lemma first_bad_none (width : nat) (rest : list (list string)) :
  (forall r, In r rest -> (List.length r <= width)%nat) ->
  Pandas.first_bad width rest = None.
Proof.
  induction rest as [|x rest IH]; simpl; intros A.
  - reflexivity.
  - assert (W : (width <? List.length x)%nat = false).
    { apply Nat.ltb_ge. apply A. auto. }
    rewrite W. apply IH. auto.
Qed.

Lemma first_bad_inv (width : nat) (rest : list (list string)) (e : exception) :
  Pandas.first_bad width rest = Some e ->
  exists r, In r rest /\ (width < List.length r)%nat
            /\ e = ParserError width (List.length r).
Proof.
  induction rest as [|x rest IH]; simpl; intros H.
  - discriminate.
  - destruct (width <? List.length x)%nat eqn:W.
    + apply Nat.ltb_lt in W. inversion H. eauto.
    + destruct (IH H) as [r [I [L E]]]. eauto.
Qed.

(** The head of [process_file]: once the text is retrieved, the frame is
    what the rest of the function works on. *)
Lemma process_file_retrieved lib network url response :
  network url = Some response ->
  raise_for_status response = Ok tt ->
  process_file lib network url =
  (df <- Pandas.read_csv lib (text response) ;;
   temp <- Pandas.to_numeric lib (Pandas.raw_Temp df) ;;
   humidity <- Pandas.to_numeric lib (Pandas.raw_Humidity df) ;;
   date_ <- Pandas.add_str (Pandas.raw_Date df) " " ;;
   date_time <- Pandas.add_series date_ (Pandas.raw_Time df) ;;
   datetime <- Pandas.to_datetime lib date_time ;;
   let time_diff := Pandas.fillna 0 (Pandas.diff datetime) in
   let cumulative_time := Pandas.cumsum time_diff in
   let cumulative_hours :=
     map (fun c => Pandas.round (Pandas.truediv (inject_Z c) 3600) 2) cumulative_time in
   Ok {| ID := Pandas.raw_ID df;
         Date := Pandas.raw_Date df;
         Time_ := Pandas.raw_Time df;
         Temp := temp;
         Humidity := humidity;
         Datetime := datetime;
         Time_Diff := time_diff;
         Cumulative_Time := cumulative_time;
         Cumulative_Hours := cumulative_hours |}).
Proof.
  intros N R. unfold process_file, requests_get. rewrite N. simpl.
  rewrite R. reflexivity.
Qed.



(** A temperature spelled as an infinity is converted: the frame is
    returned, and the summary reports the infinity as the maximum. *)
Example infinite_temperature_is_read :
  exists df,
    process_file Reference.lib (serve_only "S1 01-01-24 00:00:00 inf 50.0")
      "https://fileserv.c-probe.in/M1_S1.txt" = Ok df
    /\ Temp df = [Some Number.PosInf]
    /\ extrema df = Ok (Some Number.PosInf, Some 1704067200,
                        Some Number.PosInf, Some 1704067200).
Proof.
  eexists. split; [vm_compute; reflexivity|]. split; reflexivity.
Qed.

Lemma read_table_short_lines lib (text : string) (lines : list (list string)) :
  Lib.tokenize lib text = (lines, None) ->
  (forall r, In r lines -> (List.length r <= 5)%nat) ->
  Pandas.read_table lib text
  = Ok (map (fun r => Pandas.pad 5 (map Pandas.to_cell r)) lines).
Proof.
  intros T A. unfold Pandas.read_table. rewrite T.
  assert (W : Pandas.expected_fields lines = 5%nat).
  { destruct lines as [|first rest]; [reflexivity|].
    unfold Pandas.expected_fields. change (List.length Pandas.names) with 5%nat.
    apply Nat.max_l. apply A. left. reflexivity. }
  rewrite W. rewrite first_bad_none.
  - reflexivity.
  - intros r I. apply A. destruct lines; [contradiction|right; exact I].
Qed.

Lemma to_numeric_not_ParserError lib (c : Pandas.column) (expected saw : nat) :
  Pandas.to_numeric lib c <> Raise (ParserError expected saw).
Proof.
  destruct c as [v|v|v]; simpl; try discriminate.
  destruct (mapM_to_numeric_cell_cases lib v) as [[l [E _]]|[s [E _]]];
    rewrite E; discriminate.
Qed.

Lemma mapM_Raise {A B : Type} (f : A -> result B) (l : list A) (e : exception) :
  mapM f l = Raise e -> exists a, In a l /\ f a = Raise e.
Proof.
  induction l as [|a l IH]; simpl; intros H.
  - discriminate.
  - destruct (f a) as [b|e0] eqn:F; simpl in H.
    + destruct (mapM f l) as [bs|e1]; simpl in H; [discriminate|].
      inversion H; subst. destruct (IH eq_refl) as [a' [I E]]. eauto.
    + inversion H; subst. eauto.
Qed.

Lemma mapM_In_Raise {A B : Type} (f : A -> result B) (l : list A) (a : A) (e : exception) :
  In a l -> f a = Raise e -> exists e', mapM f l = Raise e'.
Proof.
  induction l as [|x l IH]; simpl; intros I F.
  - contradiction.
  - destruct (f x) as [b|e0] eqn:Fx; simpl; [|eauto].
    destruct I as [->|I]; [congruence|].
    destruct (IH I F) as [e' E]. rewrite E. simpl. eauto.
Qed.

Lemma to_datetime_Raise lib (l : list Pandas.cell) (e : exception) :
  Pandas.to_datetime lib l = Raise e ->
  exists s, e = ValueError_to_datetime s.
Proof.
  unfold Pandas.to_datetime. intros H. apply mapM_Raise in H.
  destruct H as [a [_ H]]. destruct a as [s|]; simpl in H; [|discriminate].
  destruct (Lib.strptime lib s); inversion H. eauto.
Qed.

Lemma add_str_Raise (c : Pandas.column) (s : string) (e : exception) :
  Pandas.add_str c s = Raise e -> e = TypeError_add.
Proof.
  destruct c; simpl; intros H; inversion H; reflexivity.
Qed.

Lemma add_series_Raise (l : list Pandas.cell) (c : Pandas.column) (e : exception) :
  Pandas.add_series l c = Raise e -> e = TypeError_add.
Proof.
  destruct c as [r|r|r]; simpl; try discriminate;
    destruct (existsb _ _); intros H; inversion H; reflexivity.
Qed.

(** A parser error on the number of fields comes from [read_csv]. *)
Lemma ParserError_read_table lib network url response expected saw :
  network url = Some response ->
  raise_for_status response = Ok tt ->
  process_file lib network url = Raise (ParserError expected saw) ->
  Pandas.read_table lib (text response) = Raise (ParserError expected saw).
Proof.
  intros N R. rewrite (process_file_retrieved lib network url response N R).
  unfold Pandas.read_csv.
  destruct (Pandas.read_table lib (text response)) as [table|e0]; simpl;
    [|intros H; inversion H; reflexivity].
  intros H. exfalso.
  destruct (Pandas.to_numeric lib _) as [t|e1] eqn:E1 in H; simpl in H;
    [|inversion H; subst; exact (to_numeric_not_ParserError _ _ _ _ E1)].
  destruct (Pandas.to_numeric lib _) as [h|e2] eqn:E2 in H; simpl in H;
    [|inversion H; subst; exact (to_numeric_not_ParserError _ _ _ _ E2)].
  destruct (Pandas.add_str _ _) as [d|e3] eqn:E3 in H; simpl in H;
    [|inversion H; subst; apply add_str_Raise in E3; discriminate].
  destruct (Pandas.add_series _ _) as [dt|e4] eqn:E4 in H; simpl in H;
    [|inversion H; subst; apply add_series_Raise in E4; discriminate].
  destruct (Pandas.to_datetime lib _) as [ts|e5] eqn:E5 in H; simpl in H;
    [discriminate|].
  inversion H; subst. apply to_datetime_Raise in E5. destruct E5; discriminate.
Qed.

(** C4, as the code has it.  Once the text is retrieved and tokenized:
    a line after the first with more fields than the larger of five and the
    number of fields of the first line makes [process_file] raise the
    parser error on the number of fields (first part); that error is raised
    in this case only (second part); and when the tokenizer met no error
    and no line has more than five fields, [read_csv] returns a frame:
    every line gives one row, and the trailing fields that a shorter line
    lacks are missing values (third part). *)
Theorem field_count_rule :
  forall lib network url response lines error,
    network url = Some response ->
    raise_for_status response = Ok tt ->
    Lib.tokenize lib (text response) = (lines, error) ->
    (forall first rest r,
        lines = first :: rest ->
        In r rest ->
        (Nat.max 5 (List.length first) < List.length r)%nat ->
        exists saw,
          process_file lib network url
          = Raise (ParserError (Nat.max 5 (List.length first)) saw)
          /\ (Nat.max 5 (List.length first) < saw)%nat)
    /\ (forall expected saw,
           process_file lib network url = Raise (ParserError expected saw) ->
           exists first rest r,
             lines = first :: rest
             /\ In r rest
             /\ expected = Nat.max 5 (List.length first)
             /\ saw = List.length r
             /\ (expected < saw)%nat)
    /\ (error = None ->
        (forall r, In r lines -> (List.length r <= 5)%nat) ->
        Pandas.read_csv lib (text response)
        = Ok (Pandas.frame_of lib
                (map (fun r => Pandas.pad 5 (map Pandas.to_cell r)) lines))).
Proof.
  intros lib network url response lines error N R T. repeat split.
  - intros first rest r -> I L.
    rewrite (process_file_retrieved lib network url response N R).
    unfold Pandas.read_csv, Pandas.read_table. rewrite T.
    cbn [tl Pandas.expected_fields].
    change (List.length Pandas.names) with 5%nat.
    destruct (first_bad_some _ rest r I L) as [saw [E W]].
    rewrite E. simpl. eauto.
  - intros expected saw H.
    apply (ParserError_read_table lib network url response _ _ N R) in H.
    unfold Pandas.read_table in H. rewrite T in H.
    destruct (Pandas.first_bad (Pandas.expected_fields lines) (tl lines))
      as [e|] eqn:B.
    + apply first_bad_inv in B. destruct B as [r [I [L E]]].
      subst e. inversion H; subst expected saw. clear H.
      destruct lines as [|first rest]; [contradiction|].
      exists first, rest, r. simpl in I.
      cbn [Pandas.expected_fields] in *.
      change (List.length Pandas.names) with 5%nat in *. auto.
    + destruct error; discriminate.
  - intros -> A. unfold Pandas.read_csv.
    rewrite (read_table_short_lines lib _ lines T A). reflexivity.
Qed.

Lemma field_count_rule_witness :
  exists saw,
    process_file Reference.lib fileserv "https://fileserv.c-probe.in/M6_S6.txt"
    = Raise (ParserError (Nat.max 5 5) saw)
    /\ (Nat.max 5 5 < saw)%nat.
Proof.
  refine (proj1 (field_count_rule Reference.lib fileserv
           "https://fileserv.c-probe.in/M6_S6.txt"
           {| status_code := 200; text := sample_six_fields |}
           [["S1"; "01-01-24"; "00:00:00"; "20.0"; "50.0"];
            ["S1"; "01-01-24"; "01:00:00"; "25.0"; "55.0"; "extra"]]
           None eq_refl eq_refl _)
           ["S1"; "01-01-24"; "00:00:00"; "20.0"; "50.0"]
           [["S1"; "01-01-24"; "01:00:00"; "25.0"; "55.0"; "extra"]]
           ["S1"; "01-01-24"; "01:00:00"; "25.0"; "55.0"; "extra"] _ _ _).
  - vm_compute. reflexivity.
  - reflexivity.
  - simpl. auto.
  - simpl. lia.
Defined.

(** C4, as stated, fails: the log of one line with four fields is read,
    and [process_file] returns a frame of one record whose humidity is
    missing. *)
Lemma four_fields_are_read :
  Lib.tokenize Reference.lib sample_four_fields
  = ([["S1"; "01-01-24"; "00:00:00"; "20.0"]], None)
  /\ exists df,
       process_file Reference.lib fileserv "https://fileserv.c-probe.in/M4_S4.txt"
       = Ok df
       /\ Temp df = [Some (Number.Finite 20)]
       /\ Humidity df = [None]
       /\ Datetime df = [Some 1704067200].
Proof.
  split; [vm_compute; reflexivity|].
  eexists. split; [vm_compute; reflexivity|].
  repeat split.
Qed.

(** A line with one field is no parser error either; its date is
    missing, the date column is read as numbers, and the sum with a string
    raises. *)
Example one_field_is_no_parse_error :
  Lib.tokenize Reference.lib sample_one_field = ([["S1"]], None)
  /\ Pandas.read_table Reference.lib sample_one_field
     = Ok [[Some "S1"; None; None; None; None]]
  /\ process_file Reference.lib fileserv "https://fileserv.c-probe.in/M11_S11.txt"
     = Raise TypeError_add.
Proof. repeat split; vm_compute; reflexivity. Qed.

(** The reference tokenizer on a quoted field and on a line of
    whitespace: the quotes delimit one field that holds a space, and the
    line that holds only a tab is skipped like a blank line. *)
Example quoted_field_is_one_field :
  Lib.tokenize Reference.lib
    (QUOTE ++ "S 1" ++ QUOTE ++ " 01-01-24 00:00:00 20.0 50.0" ++ LF ++
     TAB ++ LF ++
     "S1 01-01-24 01:00:00 25.0 55.0" ++ LF)
  = ([["S 1"; "01-01-24"; "00:00:00"; "20.0"; "50.0"];
      ["S1"; "01-01-24"; "01:00:00"; "25.0"; "55.0"]], None).
Proof. vm_compute. reflexivity. Qed.

(** The reference matcher of the datetime format takes the second 60
    into the next minute. *)
Example second_sixty_is_read :
  Lib.strptime Reference.lib "01-01-24 00:00:60" = Some (Some 1704067260).
Proof. vm_compute. reflexivity. Qed.

(* ================================================================== *)
(** ** The elapsed-time columns *)

Lemma mapM_length {A B : Type} (f : A -> result B) (l : list A) : forall out,
  mapM f l = Ok out -> List.length out = List.length l.
Proof.
  induction l as [|a l IH]; simpl; intros out H.
  - inversion H. reflexivity.
  - bind_inv H. bind_inv H. inversion H; subst. simpl.
    f_equal. apply IH. reflexivity.
Qed.

(** The derived columns of a returned frame are computed from its
    [Datetime] column. *)
Lemma process_file_columns lib network url df :
  process_file lib network url = Ok df ->
  Time_Diff df = Pandas.fillna 0 (Pandas.diff (Datetime df))
  /\ Cumulative_Time df = Pandas.cumsum (Time_Diff df)
  /\ Cumulative_Hours df
     = map (fun c => Pandas.round (Pandas.truediv (inject_Z c) 3600) 2)
           (Cumulative_Time df).
Proof.
  unfold process_file. intros H.
  repeat bind_inv H. inversion H; subst; simpl. auto.
Qed.

Lemma fillna_diff_from_nth (l : list (option Z)) : forall prev i cur,
  nth_error l i = Some cur ->
  nth_error (Pandas.fillna 0 (Pandas.diff_from prev l)) i
  = Some (elapsed cur (match i with O => prev | S j => nth j l None end)).
Proof.
  induction l as [|x l IH]; intros prev i cur H.
  - destruct i; discriminate.
  - destruct i as [|i]; simpl in *.
    + inversion H; subst. destruct cur, prev; reflexivity.
    + rewrite (IH x i cur H). destruct i; reflexivity.
Qed.

Lemma fillna_diff_head (l : list (option Z)) (t : option Z) :
  nth_error l 0 = Some t ->
  nth_error (Pandas.fillna 0 (Pandas.diff l)) 0 = Some 0.
Proof.
  destruct l; [discriminate|reflexivity].
Qed.

Lemma fillna_diff_next (l : list (option Z)) (i : nat) (cur prev : option Z) :
  nth_error l (S i) = Some cur ->
  nth_error l i = Some prev ->
  nth_error (Pandas.fillna 0 (Pandas.diff l)) (S i) = Some (elapsed cur prev).
Proof.
  destruct l as [|x l]; [discriminate|]. simpl. intros Hc Hp.
  rewrite (fillna_diff_from_nth l x i cur Hc).
  destruct i as [|i]; simpl in Hp.
  - inversion Hp. reflexivity.
  - rewrite (nth_error_nth _ _ None Hp). reflexivity.
Qed.

Lemma fillna_length (v : Z) (l : list (option Z)) :
  List.length (Pandas.fillna v l) = List.length l.
Proof. apply length_map. Qed.

Lemma diff_from_length (l : list (option Z)) : forall prev,
  List.length (Pandas.diff_from prev l) = List.length l.
Proof.
  induction l; simpl; intros; [reflexivity|]. rewrite IHl. reflexivity.
Qed.

Lemma diff_length (l : list (option Z)) :
  List.length (Pandas.diff l) = List.length l.
Proof.
  destruct l; simpl; [reflexivity|]. rewrite diff_from_length. reflexivity.
Qed.

Lemma cumsum_from_nth (l : list Z) : forall acc i,
  (i < List.length l)%nat ->
  nth_error (Pandas.cumsum_from acc l) i = Some (acc + sum (firstn (S i) l)).
Proof.
  induction l as [|x l IH]; intros acc i H; simpl in H.
  - lia.
  - destruct i as [|i].
    + simpl. f_equal. lia.
    + change (nth_error (Pandas.cumsum_from (acc + x) l) i
              = Some (acc + (x + sum (firstn (S i) l)))).
      rewrite IH by lia. f_equal. lia.
Qed.

(* ================================================================== *)
(** ** Float64 rounding *)

Lemma rint_bounds (x : Q) :
  (Qfloor x <= Float64.rint x <= Qfloor x + 1)%Z.
Proof.
  unfold Float64.rint.
  destruct (Qcompare (x - inject_Z (Qfloor x)) (1 # 2));
    [destruct (Z.even (Qfloor x))| |]; lia.
Qed.

(** [rint] is within one half of its argument. *)
Lemma rint_close (x : Q) :
  (x - (1 # 2) <= inject_Z (Float64.rint x) <= x + (1 # 2))%Q.
Proof.
  unfold Float64.rint.
  pose proof (Qfloor_le x) as Hl. pose proof (Qlt_floor x) as Hu.
  rewrite inject_Z_plus in Hu. change (inject_Z 1) with 1%Q in Hu.
  destruct (Qcompare_spec (x - inject_Z (Qfloor x)) (1 # 2)) as [E|L|G];
    [destruct (Z.even (Qfloor x))| |];
    rewrite ?inject_Z_plus; change (inject_Z 1) with 1%Q;
    generalize dependent (inject_Z (Qfloor x)); intros; lra.
Qed.

Lemma rint_monotone (x y : Q) :
  (x <= y)%Q -> (Float64.rint x <= Float64.rint y)%Z.
Proof.
  intros H.
  pose proof (Qfloor_resp_le x y H) as F.
  pose proof (rint_bounds x) as Bx. pose proof (rint_bounds y) as By.
  destruct (Z.eq_dec (Qfloor x) (Qfloor y)) as [E|N]; [|lia].
  clear Bx By F. unfold Float64.rint. rewrite <- E.
  destruct (Qcompare_spec (x - inject_Z (Qfloor x)) (1 # 2)) as [Ex|Lx|Gx];
    destruct (Qcompare_spec (y - inject_Z (Qfloor x)) (1 # 2)) as [Ey|Ly|Gy];
    try destruct (Z.even (Qfloor x)); try lia; exfalso;
    generalize dependent (inject_Z (Qfloor x)); intros; lra.
Qed.

Lemma rint_inject_Z (n : Z) : Float64.rint (inject_Z n) = n.
Proof.
  unfold Float64.rint. rewrite Qfloor_Z.
  destruct (Qcompare_spec (inject_Z n - inject_Z n) (1 # 2)) as [E|L|G].
  - exfalso. generalize dependent (inject_Z n). intros. lra.
  - reflexivity.
  - exfalso. generalize dependent (inject_Z n). intros. lra.
Qed.

Lemma two_neq_0 : ~ (2 == 0)%Q.
Proof. intros H. discriminate H. Qed.

Lemma two_pow_pos (e : Z) : (0 < 2 ^ e)%Q.
Proof. apply Qpower_0_lt. reflexivity. Qed.

Lemma inject_Z_two_pow (n : Z) : 0 <= n -> (inject_Z (2 ^ n) == 2 ^ n)%Q.
Proof. intros H. exact (Zpower_Qpower 2 n H). Qed.

(** The binary exponent brackets a positive rational between two
    consecutive powers of two. *)
Lemma ilog2_spec (x : Q) :
  (0 < x)%Q -> (2 ^ Float64.ilog2 x <= x < 2 ^ (Float64.ilog2 x + 1))%Q.
Proof.
  intros P. destruct x as [p q].
  assert (Pp : 0 < p) by (unfold Qlt in P; simpl in P; lia).
  unfold Float64.ilog2. cbn [Qnum Qden].
  set (a := Z.log2 p). set (b := Z.log2 (Z.pos q)).
  assert (Ha : 2 ^ a <= p < 2 ^ (a + 1)).
  { pose proof (Z.log2_spec p Pp) as S. fold a in S.
    replace (a + 1) with (Z.succ a) by lia. exact S. }
  assert (Hb : 2 ^ b <= Z.pos q < 2 ^ (b + 1)).
  { pose proof (Z.log2_spec (Z.pos q) eq_refl) as S. fold b in S.
    replace (b + 1) with (Z.succ b) by lia. exact S. }
  assert (A0 : 0 <= a) by apply Z.log2_nonneg.
  assert (B0 : 0 <= b) by apply Z.log2_nonneg.
  assert (PA : 0 < 2 ^ a) by (apply Z.pow_pos_nonneg; lia).
  assert (PB : 0 < 2 ^ b) by (apply Z.pow_pos_nonneg; lia).
  assert (PA1 : 0 < 2 ^ (a + 1)) by (apply Z.pow_pos_nonneg; lia).
  assert (PB1 : 0 < 2 ^ (b + 1)) by (apply Z.pow_pos_nonneg; lia).
  assert (QB : (0 < inject_Z (2 ^ b))%Q) by (unfold Qlt; simpl; lia).
  assert (QB1 : (0 < inject_Z (2 ^ (b + 1)))%Q) by (unfold Qlt; simpl; lia).
  assert (U : (p # q < 2 ^ (a - b + 1))%Q).
  { replace (a - b + 1) with ((a + 1) - b) by lia.
    rewrite Qpower_minus by exact two_neq_0.
    rewrite <- (inject_Z_two_pow (a + 1)) by lia.
    rewrite <- (inject_Z_two_pow b) by lia.
    apply Qlt_shift_div_l; [exact QB|].
    unfold Qlt, Qmult, inject_Z; simpl. nia. }
  assert (L : (2 ^ (a - b - 1) <= p # q)%Q).
  { replace (a - b - 1) with (a - (b + 1)) by lia.
    rewrite Qpower_minus by exact two_neq_0.
    rewrite <- (inject_Z_two_pow a) by lia.
    rewrite <- (inject_Z_two_pow (b + 1)) by lia.
    apply Qle_shift_div_r; [exact QB1|].
    unfold Qle, Qmult, inject_Z; simpl. nia. }
  destruct (Qle_bool (2 ^ (a - b)) (p # q)) eqn:C.
  - apply Qle_bool_iff in C. split; [exact C|exact U].
  - split; [exact L|].
    replace (a - b - 1 + 1) with (a - b) by lia.
    apply Qnot_le_lt. intros H. apply Qle_bool_iff in H. congruence.
Qed.

Lemma ilog2_monotone (x y : Q) :
  (0 < x)%Q -> (x <= y)%Q -> Float64.ilog2 x <= Float64.ilog2 y.
Proof.
  intros P H.
  assert (Py : (0 < y)%Q) by lra.
  destruct (ilog2_spec x P) as [Lx Ux]. destruct (ilog2_spec y Py) as [Ly Uy].
  destruct (Z_le_gt_dec (Float64.ilog2 x) (Float64.ilog2 y)) as [G|G]; [exact G|].
  exfalso.
  assert (M : (2 ^ (Float64.ilog2 y + 1) <= 2 ^ Float64.ilog2 x)%Q).
  { apply Qpower_le_compat_l; [lia|]. unfold Qle; simpl; lia. }
  lra.
Qed.

Lemma two_pow_split (n e : Z) : (2 ^ (e + n) == 2 ^ n * 2 ^ e)%Q.
Proof.
  rewrite <- Qpower_plus by exact two_neq_0.
  replace (n + e) with (e + n) by lia. reflexivity.
Qed.

(** The scaled significand lies between 2^52 and 2^53. *)
Lemma significand_bounds (x : Q) :
  (0 < x)%Q ->
  (2 ^ 52 <= x / 2 ^ (Float64.ilog2 x - 52) < 2 ^ 53)%Q.
Proof.
  intros P. destruct (ilog2_spec x P) as [L U].
  set (e := Float64.ilog2 x) in *.
  pose proof (two_pow_pos (e - 52)) as Pe.
  pose proof (two_pow_split 52 (e - 52)) as E1.
  pose proof (two_pow_split 53 (e - 52)) as E2.
  replace (e - 52 + 52) with e in E1 by lia.
  replace (e - 52 + 53) with (e + 1) in E2 by lia.
  split.
  - apply Qle_shift_div_l; [exact Pe|]. rewrite <- E1. exact L.
  - apply Qlt_shift_div_r; [exact Pe|]. rewrite <- E2. exact U.
Qed.

Lemma nearest_bounds (x : Q) :
  (0 < x)%Q ->
  (2 ^ Float64.ilog2 x <= Float64.nearest x <= 2 ^ (Float64.ilog2 x + 1))%Q.
Proof.
  intros P. destruct (significand_bounds x P) as [L U].
  unfold Float64.nearest.
  set (e := Float64.ilog2 x) in *.
  set (s := (x / 2 ^ (e - 52))%Q) in *.
  pose proof (two_pow_pos (e - 52)) as Pe.
  pose proof (two_pow_split 52 (e - 52)) as E1.
  pose proof (two_pow_split 53 (e - 52)) as E2.
  replace (e - 52 + 52) with e in E1 by lia.
  replace (e - 52 + 53) with (e + 1) in E2 by lia.
  assert (Rl : (2 ^ 52 <= Float64.rint s)%Z).
  { rewrite <- (rint_inject_Z (2 ^ 52)). apply rint_monotone.
    rewrite inject_Z_two_pow by lia. exact L. }
  assert (Ru : (Float64.rint s <= 2 ^ 53)%Z).
  { rewrite <- (rint_inject_Z (2 ^ 53)). apply rint_monotone.
    rewrite inject_Z_two_pow by lia. apply Qlt_le_weak. exact U. }
  rewrite E1, E2. split.
  - apply Qmult_le_compat_r; [|apply Qlt_le_weak; exact Pe].
    rewrite <- (inject_Z_two_pow 52) by lia. rewrite <- Zle_Qle. exact Rl.
  - apply Qmult_le_compat_r; [|apply Qlt_le_weak; exact Pe].
    rewrite <- (inject_Z_two_pow 53) by lia. rewrite <- Zle_Qle. exact Ru.
Qed.

Lemma nearest_monotone (x y : Q) :
  (0 < x)%Q -> (x <= y)%Q -> (Float64.nearest x <= Float64.nearest y)%Q.
Proof.
  intros P H.
  assert (Py : (0 < y)%Q) by lra.
  pose proof (ilog2_monotone x y P H) as M.
  destruct (Z.eq_dec (Float64.ilog2 x) (Float64.ilog2 y)) as [E|N].
  - unfold Float64.nearest. rewrite <- E.
    pose proof (two_pow_pos (Float64.ilog2 x - 52)) as Pe.
    apply Qmult_le_compat_r; [|apply Qlt_le_weak; exact Pe].
    rewrite <- Zle_Qle. apply rint_monotone.
    apply Qmult_le_compat_r; [exact H|].
    apply Qlt_le_weak. apply Qinv_lt_0_compat. exact Pe.
  - destruct (nearest_bounds x P) as [_ U]. destruct (nearest_bounds y Py) as [L _].
    assert (K : (2 ^ (Float64.ilog2 x + 1) <= 2 ^ Float64.ilog2 y)%Q).
    { apply Qpower_le_compat_l; [lia|]. unfold Qle; simpl; lia. }
    lra.
Qed.

Lemma nearest_pos (x : Q) : (0 < x)%Q -> (0 < Float64.nearest x)%Q.
Proof.
  intros P. destruct (nearest_bounds x P) as [L _].
  pose proof (two_pow_pos (Float64.ilog2 x)). lra.
Qed.

(** Rounding to the nearest double is monotone. *)
Lemma fl_monotone (x y : Q) : (x <= y)%Q -> (Float64.fl x <= Float64.fl y)%Q.
Proof.
  intros H. unfold Float64.fl.
  destruct (Qcompare_spec x 0) as [Ex|Lx|Gx];
    destruct (Qcompare_spec y 0) as [Ey|Ly|Gy];
    rewrite ?Qred_correct; try lra.
  - pose proof (nearest_pos _ Gy). lra.
  - assert (P : (0 < - x)%Q) by lra. pose proof (nearest_pos _ P). lra.
  - assert (P : (0 < - y)%Q) by lra.
    assert (M : (- y <= - x)%Q) by lra.
    pose proof (nearest_monotone _ _ P M). lra.
  - assert (P : (0 < - x)%Q) by lra.
    pose proof (nearest_pos _ P). pose proof (nearest_pos _ Gy). lra.
  - exact (nearest_monotone _ _ Gx H).
Qed.

Lemma nearest_error (x : Q) :
  (0 < x)%Q ->
  (x - x * Float64.unit_roundoff <= Float64.nearest x
   <= x + x * Float64.unit_roundoff)%Q.
Proof.
  intros P. destruct (ilog2_spec x P) as [L _].
  unfold Float64.nearest.
  set (e := Float64.ilog2 x) in *.
  pose proof (two_pow_pos (e - 52)) as Pe.
  pose proof (rint_close (x / 2 ^ (e - 52))) as [Cl Cu].
  set (m := inject_Z (Float64.rint (x / 2 ^ (e - 52)))) in *.
  pose proof (two_pow_split 52 (e - 52)) as E1.
  replace (e - 52 + 52) with e in E1 by lia.
  assert (X : (x == x / 2 ^ (e - 52) * 2 ^ (e - 52))%Q).
  { field. lra. }
  set (s := (x / 2 ^ (e - 52))%Q) in *.
  set (t := (2 ^ (e - 52))%Q) in *.
  assert (T : (t * (1 # 2) <= x * Float64.unit_roundoff)%Q).
  { rewrite E1 in L. fold t in L.
    change (2 ^ 52)%Q with (4503599627370496 # 1)%Q in L.
    unfold Float64.unit_roundoff. lra. }
  assert (A : (m * t <= (s + (1 # 2)) * t)%Q).
  { apply Qmult_le_compat_r; [exact Cu|apply Qlt_le_weak; exact Pe]. }
  assert (B : ((s - (1 # 2)) * t <= m * t)%Q).
  { apply Qmult_le_compat_r; [exact Cl|apply Qlt_le_weak; exact Pe]. }
  clearbody m s t. clear Cl Cu E1 L.
  assert (A' : (m * t <= x + t * (1 # 2))%Q).
  { rewrite X at 1. ring_simplify. ring_simplify in A. lra. }
  assert (B' : (x - t * (1 # 2) <= m * t)%Q).
  { rewrite X at 1. ring_simplify. ring_simplify in B. lra. }
  lra.
Qed.

(** The relative error of rounding to the nearest double is at most the
    unit roundoff. *)
Lemma fl_error (x : Q) :
  (x - Qabs x * (1 # 9007199254740992) <= Float64.fl x
   <= x + Qabs x * (1 # 9007199254740992))%Q.
Proof.
  change (1 # 9007199254740992)%Q with Float64.unit_roundoff.
  unfold Float64.fl.
  destruct (Qcompare_spec x 0) as [E|L|G]; rewrite ?Qred_correct.
  - rewrite E. unfold Float64.unit_roundoff, Qle; simpl. lia.
  - assert (P : (0 < - x)%Q) by lra.
    pose proof (nearest_error _ P) as [A B].
    rewrite (Qabs_neg x) by lra. lra.
  - pose proof (nearest_error _ G) as [A B].
    rewrite (Qabs_pos x) by lra. lra.
Qed.

Lemma Qabs_cases (x : Q) :
  ((0 <= x)%Q /\ (Qabs x == x)%Q) \/ ((x <= 0)%Q /\ (Qabs x == - x)%Q).
Proof.
  destruct (Qlt_le_dec x 0) as [L|G].
  - right. split; [lra|]. apply Qabs_neg. lra.
  - left. split; [exact G|]. apply Qabs_pos. exact G.
Qed.

(** A value rounded to two decimals is the double nearest to a number of
    hundredths that is within half a hundredth of the value, up to the
    rounding of the scaling. *)
Lemma round2_grid (x : Q) :
  exists k : Z,
    Pandas.round x 2 = Float64.fl (inject_Z k / 100)
    /\ (x - (1 # 200) - Qabs x * (1 # 9007199254740992)
        <= inject_Z k / 100
        <= x + (1 # 200) + Qabs x * (1 # 9007199254740992))%Q.
Proof.
  exists (Float64.rint (Float64.fl (x * 100))). split; [reflexivity|].
  pose proof (fl_error (x * 100)) as F1.
  set (y := Float64.fl (x * 100)) in *.
  pose proof (rint_close y) as F2.
  set (k := inject_Z (Float64.rint y)) in *.
  assert (K : (k / 100 == k * (1 # 100))%Q) by field.
  rewrite K.
  assert (A : (Qabs (x * 100) == Qabs x * 100)%Q).
  { rewrite Qabs_Qmult. reflexivity. }
  rewrite A in F1.
  clearbody k y. generalize dependent (Qabs x). intros. lra.
Qed.

Lemma hours_grid (c : Z) :
  exists k : Z,
    Pandas.round (Pandas.truediv (inject_Z c) 3600) 2 = Float64.fl (inject_Z k / 100)
    /\ (Qabs (inject_Z k / 100 - inject_Z c / 3600)
        <= (1 # 200) + 3 * Qabs (inject_Z c / 3600) * Float64.unit_roundoff)%Q.
Proof.
  unfold Pandas.truediv, Float64.unit_roundoff.
  set (r := (inject_Z c / 3600)%Q).
  pose proof (fl_error r) as F1.
  set (x := Float64.fl r) in *.
  destruct (round2_grid x) as [k [E B]].
  exists k. split; [exact E|].
  apply Qabs_Qle_condition. clear E.
  generalize dependent (inject_Z k / 100)%Q. intros g B.
  clearbody x r.
  destruct (Qabs_cases r) as [[R0 Ra]|[R0 Ra]];
    destruct (Qabs_cases x) as [[X0 Xa]|[X0 Xa]];
    rewrite Ra in *; rewrite Xa in *; split; lra.
Qed.

(** A value rounded to two decimals is within half a hundredth of the
    value, up to the rounding of the scaling and of the division. *)
Lemma round2_error (x : Q) :
  (Qabs (Pandas.round x 2 - x)
   <= (1 # 200) + (3 * Qabs x + 1) * (1 # 9007199254740992))%Q.
Proof.
  destruct (round2_grid x) as [k [E B]]. rewrite E. clear E.
  pose proof (fl_error (inject_Z k / 100)) as F3.
  generalize dependent (Float64.fl (inject_Z k / 100)). intros h F3.
  generalize dependent (inject_Z k / 100)%Q. intros g B F3.
  apply Qabs_Qle_condition.
  destruct (Qabs_cases x) as [[X0 Xa]|[X0 Xa]];
    destruct (Qabs_cases g) as [[K0 Ka]|[K0 Ka]];
    rewrite Xa in *; rewrite Ka in *; split; lra.
Qed.

Lemma hours_error (c : Z) :
  (Qabs (Pandas.round (Pandas.truediv (inject_Z c) 3600) 2 - inject_Z c / 3600)
   <= (1 # 200) + (5 * Qabs (inject_Z c / 3600) + 1) * Float64.unit_roundoff)%Q.
Proof.
  unfold Pandas.truediv, Float64.unit_roundoff.
  set (r := (inject_Z c / 3600)%Q).
  pose proof (fl_error r) as F1.
  set (x := Float64.fl r) in *.
  pose proof (round2_error x) as F2. apply Qabs_Qle_condition in F2.
  set (h := Pandas.round x 2) in *.
  apply Qabs_Qle_condition.
  clearbody h x r.
  destruct (Qabs_cases r) as [[R0 Ra]|[R0 Ra]];
    destruct (Qabs_cases x) as [[X0 Xa]|[X0 Xa]];
    rewrite Ra in *; rewrite Xa in *; split; lra.
Qed.

(** C1, as the code has it.  In a returned frame: the first elapsed time
    is zero; the elapsed time of a later record is its timestamp minus the
    previous one, signed, when both are present, and zero when either is
    missing; the cumulative time is the sum of the elapsed times up to the
    record; the cumulative hours are the cumulative time over 3600, rounded
    to two decimals, both in float64: the double nearest to a number of
    hundredths [k / 100] that is within half a hundredth of the exact
    quotient, up to the rounding of the division and of the scaling. *)
Theorem elapsed_time_columns :
  forall lib network url df,
    process_file lib network url = Ok df ->
    (forall t, nth_error (Datetime df) 0 = Some t ->
               nth_error (Time_Diff df) 0 = Some 0)
    /\ (forall i cur prev,
           nth_error (Datetime df) (S i) = Some (Some cur) ->
           nth_error (Datetime df) i = Some (Some prev) ->
           nth_error (Time_Diff df) (S i) = Some (cur - prev))
    /\ (forall i cur prev,
           nth_error (Datetime df) (S i) = Some cur ->
           nth_error (Datetime df) i = Some prev ->
           cur = None \/ prev = None ->
           nth_error (Time_Diff df) (S i) = Some 0)
    /\ (forall i t,
           nth_error (Datetime df) i = Some t ->
           exists c h k,
             nth_error (Cumulative_Time df) i = Some c
             /\ c = sum (firstn (S i) (Time_Diff df))
             /\ nth_error (Cumulative_Hours df) i = Some h
             /\ h = Pandas.round (Pandas.truediv (inject_Z c) 3600) 2
             /\ h = Float64.fl (inject_Z k / 100)
             /\ (Qabs (inject_Z k / 100 - inject_Z c / 3600)
                 <= (1 # 200)
                    + 3 * Qabs (inject_Z c / 3600) * Float64.unit_roundoff)%Q).
Proof.
  intros lib network url df H.
  destruct (process_file_columns lib network url df H) as [Ed [Ec Eh]].
  repeat split.
  - intros t Ht. rewrite Ed. exact (fillna_diff_head _ t Ht).
  - intros i cur prev Hc Hp. rewrite Ed.
    rewrite (fillna_diff_next _ i _ _ Hc Hp). reflexivity.
  - intros i cur prev Hc Hp M. rewrite Ed.
    rewrite (fillna_diff_next _ i _ _ Hc Hp).
    destruct M as [-> | ->]; [reflexivity | destruct cur; reflexivity].
  - intros i t Ht.
    assert (L : (i < List.length (Time_Diff df))%nat).
    { rewrite Ed, fillna_length, diff_length.
      apply nth_error_Some. congruence. }
    assert (C : nth_error (Cumulative_Time df) i
                = Some (sum (firstn (S i) (Time_Diff df)))).
    { rewrite Ec. unfold Pandas.cumsum. rewrite cumsum_from_nth by exact L.
      reflexivity. }
    destruct (hours_grid (sum (firstn (S i) (Time_Diff df)))) as [k [Ek Bk]].
    exists (sum (firstn (S i) (Time_Diff df))),
           (Pandas.round (Pandas.truediv
              (inject_Z (sum (firstn (S i) (Time_Diff df)))) 3600) 2),
           k.
    split; [exact C|]. split; [reflexivity|].
    split; [rewrite Eh, nth_error_map, C; reflexivity|].
    split; [reflexivity|]. split; [exact Ek|exact Bk].
Qed.

Lemma elapsed_time_columns_witness :
  process_file Reference.lib fileserv "https://fileserv.c-probe.in/M10_S10.txt"
  = Ok frame_1962
  /\ (forall i cur prev,
         nth_error (Datetime frame_1962) (S i) = Some (Some cur) ->
         nth_error (Datetime frame_1962) i = Some (Some prev) ->
         nth_error (Time_Diff frame_1962) (S i) = Some (cur - prev))
  /\ (forall i t,
         nth_error (Datetime frame_1962) i = Some t ->
         exists c h k,
           nth_error (Cumulative_Time frame_1962) i = Some c
           /\ c = sum (firstn (S i) (Time_Diff frame_1962))
           /\ nth_error (Cumulative_Hours frame_1962) i = Some h
           /\ h = Pandas.round (Pandas.truediv (inject_Z c) 3600) 2
           /\ h = Float64.fl (inject_Z k / 100)
           /\ (Qabs (inject_Z k / 100 - inject_Z c / 3600)
               <= (1 # 200)
                  + 3 * Qabs (inject_Z c / 3600) * Float64.unit_roundoff)%Q).
Proof.
  assert (P : process_file Reference.lib fileserv
                "https://fileserv.c-probe.in/M10_S10.txt"
              = Ok frame_1962) by (vm_compute; reflexivity).
  split; [exact P|].
  pose proof (elapsed_time_columns Reference.lib fileserv
                "https://fileserv.c-probe.in/M10_S10.txt" frame_1962 P)
    as [_ [A [_ B]]].
  split; [exact A|exact B].
Defined.

(** The running example: hours 0, 1 and 3. *)
Example sample_columns :
  process_file Reference.lib fileserv "https://fileserv.c-probe.in/M1_S1.txt"
  = Ok sample_frame.
Proof. vm_compute. reflexivity. Qed.

(** A record 1962 seconds after the first: the quotient 0.545 is no
    double, the double nearest to it times 100 rounds to 55, and the
    cumulative hours are the double nearest to 0.55. *)
Example hours_of_1962_seconds :
  (inject_Z 1962 / 3600 == 545 # 1000)%Q
  /\ Float64.rint (Float64.fl (Pandas.truediv (inject_Z 1962) 3600 * 100)) = 55
  /\ Pandas.round (Pandas.truediv (inject_Z 1962) 3600) 2 = Float64.fl (55 # 100)
  /\ nth_error (Cumulative_Hours frame_1962) 1 = Some (Float64.fl (55 # 100)).
Proof. repeat split; vm_compute; reflexivity. Qed.

(** C1, as stated, fails: in the log whose second record has no date, the
    elapsed time of the third record is zero, which is not the difference
    of its timestamp and the previous one (that difference is missing);
    three hours after the first record the cumulative hours are still 0. *)
Lemma elapsed_is_zero_at_missing_timestamp :
  exists df,
    process_file Reference.lib fileserv "https://fileserv.c-probe.in/M3_S3.txt"
    = Ok df
    /\ Datetime df = [Some 1704067200; None; Some 1704078000]
    /\ nth_error (Time_Diff df) 2 = Some 0
    /\ Pandas.sub (nth 2 (Datetime df) None) (nth 1 (Datetime df) None) = None
    /\ Some (nth 2 (Time_Diff df) 0)
       <> Pandas.sub (nth 2 (Datetime df) None) (nth 1 (Datetime df) None)
    /\ Cumulative_Hours df = [0%Q; 0%Q; 0%Q].
Proof.
  eexists. split; [vm_compute; reflexivity|].
  simpl. repeat split. discriminate.
Qed.

(* ================================================================== *)
(** ** Monotonicity *)

Lemma round_monotone (x y : Q) (decimals : nat) :
  (x <= y)%Q -> (Pandas.round x decimals <= Pandas.round y decimals)%Q.
Proof.
  intros H. unfold Pandas.round.
  assert (P : 0 < 10 ^ Z.of_nat decimals) by (apply Z.pow_pos_nonneg; lia).
  set (f := inject_Z (10 ^ Z.of_nat decimals)).
  assert (F : (0 < f)%Q) by (unfold f, Qlt; simpl; lia).
  apply fl_monotone.
  apply Qmult_le_compat_r; [|apply Qlt_le_weak; apply Qinv_lt_0_compat; exact F].
  rewrite <- Zle_Qle. apply rint_monotone. apply fl_monotone.
  apply Qmult_le_compat_r; [exact H|apply Qlt_le_weak; exact F].
Qed.

Lemma hours_monotone (c d : Z) :
  c <= d ->
  (Pandas.round (Pandas.truediv (inject_Z c) 3600) 2
   <= Pandas.round (Pandas.truediv (inject_Z d) 3600) 2)%Q.
Proof.
  intros H. apply round_monotone. unfold Pandas.truediv. apply fl_monotone.
  unfold Qle, Qdiv, Qmult, Qinv, inject_Z; simpl. lia.
Qed.

Lemma Sorted_map_monotone {A B : Type} (R : A -> A -> Prop) (S : B -> B -> Prop)
    (f : A -> B) (l : list A) :
  (forall a b, R a b -> S (f a) (f b)) ->
  Sorted R l -> Sorted S (map f l).
Proof.
  intros M H. induction H as [|a l Hs IH Hd]; simpl.
  - constructor.
  - constructor; [exact IH|].
    destruct Hd; simpl; constructor. auto.
Qed.

Lemma cumsum_from_sorted (l : list Z) : forall acc,
  Forall (fun d => 0 <= d) l ->
  Sorted Z.le (Pandas.cumsum_from acc l)
  /\ HdRel Z.le acc (Pandas.cumsum_from acc l).
Proof.
  induction l as [|x l IH]; simpl; intros acc F.
  - split; constructor.
  - inversion F as [|? ? Hx Hl]; subst.
    destruct (IH (acc + x) Hl) as [S H].
    split; constructor; auto; lia.
Qed.

Lemma diff_from_nonneg (l : list (option Z)) : forall prev,
  Sorted before (prev :: l) ->
  Forall (fun d => 0 <= d) (Pandas.fillna 0 (Pandas.diff_from prev l)).
Proof.
  induction l as [|x l IH]; simpl; intros prev H.
  - constructor.
  - apply Sorted_inv in H. destruct H as [H Hd].
    constructor.
    + apply HdRel_inv in Hd. unfold before in Hd.
      destruct prev as [p|]; [|contradiction].
      destruct x as [c|]; [|contradiction]. simpl. lia.
    + apply IH. exact H.
Qed.

Lemma diff_nonneg (l : list (option Z)) :
  Sorted before l ->
  Forall (fun d => 0 <= d) (Pandas.fillna 0 (Pandas.diff l)).
Proof.
  destruct l as [|x l]; simpl; intros H.
  - constructor.
  - constructor; [lia|]. apply diff_from_nonneg. exact H.
Qed.

(** C3.  When the timestamps of a returned frame are strictly increasing,
    its cumulative hours are non-decreasing. *)
Theorem cumulative_hours_nondecreasing :
  forall lib network url df,
    process_file lib network url = Ok df ->
    Sorted before (Datetime df) ->
    Sorted Qle (Cumulative_Hours df).
Proof.
  intros lib network url df H S.
  destruct (process_file_columns lib network url df H) as [Ed [Ec Eh]].
  rewrite Eh. apply (Sorted_map_monotone Z.le).
  - exact hours_monotone.
  - rewrite Ec, Ed. apply cumsum_from_sorted. apply diff_nonneg. exact S.
Qed.

Lemma cumulative_hours_nondecreasing_witness :
  process_file Reference.lib fileserv "https://fileserv.c-probe.in/M1_S1.txt"
  = Ok sample_frame
  /\ Sorted before (Datetime sample_frame)
  /\ Sorted Qle (Cumulative_Hours sample_frame).
Proof.
  assert (P : process_file Reference.lib fileserv
                "https://fileserv.c-probe.in/M1_S1.txt"
              = Ok sample_frame) by (vm_compute; reflexivity).
  assert (S : Sorted before (Datetime sample_frame)) by (repeat constructor).
  split; [exact P|]. split; [exact S|].
  exact (cumulative_hours_nondecreasing Reference.lib fileserv
           "https://fileserv.c-probe.in/M1_S1.txt" sample_frame P S).
Defined.

(* ================================================================== *)
(** ** The extrema *)

Lemma leb_refl (a : Number.t) : Number.leb a a = true.
Proof.
  destruct a; simpl; try reflexivity. apply Qle_bool_iff. apply Qle_refl.
Qed.

Lemma le_trans (a b c : Number.t) :
  Number.le a b -> Number.le b c -> Number.le a c.
Proof.
  unfold Number.le. destruct a, b, c; simpl; try discriminate; try reflexivity.
  rewrite !Qle_bool_iff. apply Qle_trans.
Qed.

Lemma leb_total (a b : Number.t) :
  Number.leb a b = false -> Number.le b a.
Proof.
  unfold Number.le. destruct a, b; simpl; try discriminate; try reflexivity.
  intros H. apply Qle_bool_iff. apply Qlt_le_weak. apply Qnot_le_lt.
  intros L. apply Qle_bool_iff in L. congruence.
Qed.

Lemma eqb_refl (a : Number.t) : Number.eqb a a = true.
Proof.
  destruct a; simpl; try reflexivity. apply Qeq_bool_iff. reflexivity.
Qed.

Lemma max_spec (l : list (option Number.t)) :
  match Pandas.max l with
  | None => forall q, ~ In (Some q) l
  | Some hi => In (Some hi) l /\ forall q, In (Some q) l -> Number.le q hi
  end.
Proof.
  induction l as [|c l IH]; simpl.
  - intros q [].
  - destruct c as [x|].
    + destruct (Pandas.max l) as [m|].
      * destruct IH as [I A].
        destruct (Number.leb m x) eqn:C.
        -- split; [auto|].
           intros q [E|H]; [inversion E; apply leb_refl|].
           apply le_trans with m; auto.
        -- apply leb_total in C. split; [auto|].
           intros q [E|H]; [inversion E; subst; exact C|auto].
      * split; [auto|].
        intros q [E|H]; [inversion E; apply leb_refl|].
        exfalso. exact (IH q H).
    + destruct (Pandas.max l) as [m|].
      * destruct IH as [I A]. split; [auto|].
        intros q [E|H]; [discriminate|auto].
      * intros q [E|H]; [discriminate|exact (IH q H)].
Qed.

Lemma min_spec (l : list (option Number.t)) :
  match Pandas.min l with
  | None => forall q, ~ In (Some q) l
  | Some lo => In (Some lo) l /\ forall q, In (Some q) l -> Number.le lo q
  end.
Proof.
  induction l as [|c l IH]; simpl.
  - intros q [].
  - destruct c as [x|].
    + destruct (Pandas.min l) as [m|].
      * destruct IH as [I A].
        destruct (Number.leb x m) eqn:C.
        -- split; [auto|].
           intros q [E|H]; [inversion E; apply leb_refl|].
           apply le_trans with m; auto.
        -- apply leb_total in C. split; [auto|].
           intros q [E|H]; [inversion E; subst; exact C|auto].
      * split; [auto|].
        intros q [E|H]; [inversion E; apply leb_refl|].
        exfalso. exact (IH q H).
    + destruct (Pandas.min l) as [m|].
      * destruct IH as [I A]. split; [auto|].
        intros q [E|H]; [discriminate|auto].
      * intros q [E|H]; [discriminate|exact (IH q H)].
Qed.

(** Selecting the times where the temperature equals [v] and taking the
    first of them gives the time of the first record that attains [v]. *)
Lemma loc_eq_first (temps : list (option Number.t)) : forall times v q0,
  List.length times = List.length temps ->
  In (Some q0) temps -> Number.eq q0 v ->
  exists t,
    Pandas.iloc0 (Pandas.loc (Pandas.eq temps (Some v)) times) = Ok t
    /\ first_at temps times v t.
Proof.
  unfold Number.eq.
  induction temps as [|c temps IH]; intros times v q0 L I E.
  - contradiction.
  - destruct times as [|t0 times]; [discriminate|].
    simpl in L. injection L as L.
    destruct c as [a|].
    + simpl. destruct (Number.eqb a v) eqn:C.
      * exists t0. split; [reflexivity|].
        exists 0%nat, a. repeat split.
        -- exact C.
        -- intros j q' H. lia.
      * assert (I' : In (Some q0) temps).
        { destruct I as [H|H]; [|exact H]. inversion H; subst. congruence. }
        destruct (IH times v q0 L I' E) as [t [Ht [i [q [Hi [Hq [Hti F]]]]]]].
        exists t. split; [exact Ht|].
        exists (S i), q. repeat split; auto.
        intros j q' Hj Hn. destruct j as [|j]; simpl in Hn.
        -- inversion Hn; subst. unfold Number.eq. congruence.
        -- apply (F j q'); [lia|exact Hn].
    + assert (I' : In (Some q0) temps).
      { destruct I as [H|H]; [discriminate|exact H]. }
      destruct (IH times v q0 L I' E) as [t [Ht [i [q [Hi [Hq [Hti F]]]]]]].
      exists t. split; [exact Ht|].
      exists (S i), q. repeat split; auto.
      intros j q' Hj Hn. destruct j as [|j]; simpl in Hn.
      * discriminate.
      * apply (F j q'); [lia|exact Hn].
Qed.

Lemma to_numeric_infer_length lib (cells : list Pandas.cell)
    (out : list (option Number.t)) :
  Pandas.to_numeric lib (Pandas.infer lib cells) = Ok out ->
  List.length out = List.length cells.
Proof.
  destruct (infer_cases lib cells) as [E|[[E _]|[E _]]]; rewrite E; simpl.
  - apply mapM_length.
  - intros H. inversion H. apply length_map.
  - intros H. inversion H. rewrite !length_map. reflexivity.
Qed.

Lemma add_str_infer_length lib (cells : list Pandas.cell) (s : string)
    (out : list Pandas.cell) :
  Pandas.add_str (Pandas.infer lib cells) s = Ok out ->
  List.length out = List.length cells.
Proof.
  destruct (infer_cases lib cells) as [E|[[E _]|[E _]]]; rewrite E; simpl.
  - intros H. inversion H. apply length_map.
  - discriminate.
  - discriminate.
Qed.

Lemma add_series_infer_length lib (l cells out : list Pandas.cell) :
  List.length l = List.length cells ->
  Pandas.add_series l (Pandas.infer lib cells) = Ok out ->
  List.length out = List.length cells.
Proof.
  intros L. destruct (infer_cases lib cells) as [E|[[E _]|[E _]]]; rewrite E; simpl.
  - intros H. inversion H. rewrite length_map, length_combine.
    rewrite L. apply Nat.min_id.
  - destruct (existsb _ _); [discriminate|].
    intros H. inversion H. rewrite length_map. exact L.
  - destruct (existsb _ _); [discriminate|].
    intros H. inversion H. rewrite length_map. exact L.
Qed.

(** The columns of a returned frame have one entry per record. *)
Lemma process_file_same_length lib network url df :
  process_file lib network url = Ok df ->
  List.length (Datetime df) = List.length (Temp df).
Proof.
  unfold process_file, Pandas.read_csv. intros H.
  repeat bind_inv H. inversion H; subst; simpl. clear H.
  bind_inv Ha1. inversion Ha1; subst a1. simpl in *.
  apply to_numeric_infer_length in Ha2.
  apply add_str_infer_length in Ha4.
  apply add_series_infer_length in Ha5;
    [|rewrite Ha4, !col_length; reflexivity].
  apply mapM_length in Ha6.
  rewrite Ha6, Ha5, Ha2, !col_length. reflexivity.
Qed.

Lemma extrema_spec (df : DataFrame) :
  List.length (Datetime df) = List.length (Temp df) ->
  (exists i q, nth_error (Temp df) i = Some (Some q)) ->
  exists hi t_hi lo t_lo,
    extrema df = Ok (Some hi, t_hi, Some lo, t_lo)
    /\ (forall j q, nth_error (Temp df) j = Some (Some q) ->
                    Number.le lo q /\ Number.le q hi)
    /\ first_at (Temp df) (Datetime df) hi t_hi
    /\ first_at (Temp df) (Datetime df) lo t_lo.
Proof.
  intros L [i [q Hq]].
  apply nth_error_In in Hq.
  unfold extrema.
  pose proof (max_spec (Temp df)) as Hmax.
  pose proof (min_spec (Temp df)) as Hmin.
  destruct (Pandas.max (Temp df)) as [hi|]; [|exfalso; exact (Hmax q Hq)].
  destruct (Pandas.min (Temp df)) as [lo|]; [|exfalso; exact (Hmin q Hq)].
  destruct Hmax as [Ihi Ahi]. destruct Hmin as [Ilo Alo].
  destruct (loc_eq_first (Temp df) (Datetime df) hi hi L Ihi (eqb_refl hi))
    as [t_hi [Ehi Fhi]].
  destruct (loc_eq_first (Temp df) (Datetime df) lo lo L Ilo (eqb_refl lo))
    as [t_lo [Elo Flo]].
  exists hi, t_hi, lo, t_lo.
  rewrite Ehi. simpl. rewrite Elo. simpl.
  split; [reflexivity|]. split; [|auto].
  intros j q' Hj. apply nth_error_In in Hj. split; auto.
Qed.

(** C2, as the code has it.  For a returned frame in which some record has
    a temperature, the extrema are returned: the maximum is at least, and
    the minimum at most, every temperature that is present, and each comes
    with the time of the first record that attains it. *)
Theorem extrema_of_present_temperatures :
  forall lib network url df,
    process_file lib network url = Ok df ->
    (exists i q, nth_error (Temp df) i = Some (Some q)) ->
    exists hi t_hi lo t_lo,
      extrema df = Ok (Some hi, t_hi, Some lo, t_lo)
      /\ (forall j q, nth_error (Temp df) j = Some (Some q) ->
                      Number.le lo q /\ Number.le q hi)
      /\ first_at (Temp df) (Datetime df) hi t_hi
      /\ first_at (Temp df) (Datetime df) lo t_lo.
Proof.
  intros lib network url df H P.
  apply extrema_spec; [|exact P].
  exact (process_file_same_length lib network url df H).
Qed.

Lemma extrema_of_present_temperatures_witness :
  exists hi t_hi lo t_lo,
    extrema sample_frame = Ok (Some hi, t_hi, Some lo, t_lo)
    /\ (forall j q, nth_error (Temp sample_frame) j = Some (Some q) ->
                    Number.le lo q /\ Number.le q hi)
    /\ first_at (Temp sample_frame) (Datetime sample_frame) hi t_hi
    /\ first_at (Temp sample_frame) (Datetime sample_frame) lo t_lo.
Proof.
  apply (extrema_of_present_temperatures Reference.lib fileserv
           "https://fileserv.c-probe.in/M1_S1.txt" sample_frame).
  - vm_compute. reflexivity.
  - exists 0%nat, (Number.Finite 20). reflexivity.
Defined.

(** The extrema of the running example. *)
Example sample_extrema :
  extrema sample_frame
  = Ok (Some (Number.Finite 25), Some 1704070800,
        Some (Number.Finite 20), Some 1704067200).
Proof. vm_compute. reflexivity. Qed.

(** C2, as stated, fails: the log of one record whose temperature is the
    marker of a missing value gives a frame of one record, and its summary
    raises. *)
Lemma summary_of_missing_temperatures_raises :
  exists df,
    process_file Reference.lib fileserv "https://fileserv.c-probe.in/M5_S5.txt"
    = Ok df
    /\ Temp df = [None]
    /\ Datetime df = [Some 1704067200]
    /\ extrema df = Raise IndexError.
Proof.
  eexists. split; [vm_compute; reflexivity|].
  repeat split.
Qed.

(* ================================================================== *)
(** ** Lines and rows of the table *)

Lemma split_by_nonempty (sep : ascii -> bool) (s : string) :
  Py.split_by sep s <> [].
Proof.
  destruct s as [|c s]; simpl; [discriminate|].
  destruct (sep c); [discriminate|].
  destruct (Py.split_by sep s); discriminate.
Qed.

Lemma first_bad_none_inv (width : nat) (rest : list (list string)) :
  Pandas.first_bad width rest = None ->
  forall r, In r rest -> (List.length r <= width)%nat.
Proof.
  induction rest as [|x rest IH]; simpl; intros H r I.
  - contradiction.
  - destruct (width <? List.length x)%nat eqn:W; [discriminate|].
    apply Nat.ltb_ge in W. destruct I as [<-|I]; auto.
Qed.

Lemma row_width (width : nat) (r : list string) :
  (5 <= width)%nat -> (List.length r <= width)%nat ->
  List.length (skipn (width - 5) (Pandas.pad width (map Pandas.to_cell r))) = 5%nat.
Proof.
  intros W L. unfold Pandas.pad.
  rewrite length_skipn, length_app, repeat_length, length_map. lia.
Qed.

(** What a returned table was made of. *)
Lemma read_table_Ok lib (text : string) (table : list (list Pandas.cell)) :
  Pandas.read_table lib text = Ok table ->
  exists lines,
    Lib.tokenize lib text = (lines, None)
    /\ Pandas.first_bad (Pandas.expected_fields lines) (tl lines) = None
    /\ table = map (fun r => skipn (Pandas.expected_fields lines - 5)%nat
                               (Pandas.pad (Pandas.expected_fields lines)
                                  (map Pandas.to_cell r)))
                   lines.
Proof.
  unfold Pandas.read_table.
  destruct (Lib.tokenize lib text) as [lines error].
  destruct (Pandas.first_bad _ (tl lines)) eqn:B; [discriminate|].
  destruct error; [discriminate|].
  intros H. inversion H. exists lines. auto.
Qed.


(** X2.  The table read from a text has one row per line that the
    tokenizer completed, and every row has exactly five cells, however
    many fields its line has. *)
Theorem table_is_rectangular :
  forall lib text table,
    Pandas.read_table lib text = Ok table ->
    snd (Lib.tokenize lib text) = None
    /\ List.length table = List.length (fst (Lib.tokenize lib text))
    /\ Forall (fun r => List.length r = 5%nat) table.
Proof.
  intros lib text table H.
  apply read_table_Ok in H. destruct H as [lines [T [B ->]]].
  rewrite T. simpl. split; [reflexivity|]. split; [apply length_map|].
  apply Forall_forall. intros r I. apply in_map_iff in I.
  destruct I as [l [<- I]].
  assert (W : (5 <= Pandas.expected_fields lines)%nat).
  { destruct lines as [|first rest]; cbn [Pandas.expected_fields];
      change (List.length Pandas.names) with 5%nat; lia. }
  apply row_width; [exact W|].
  destruct lines as [|first rest]; [contradiction|].
  destruct I as [<-|I].
  - cbn [Pandas.expected_fields]. lia.
  - exact (first_bad_none_inv _ _ B l I).
Qed.

Lemma table_is_rectangular_witness :
  snd (Lib.tokenize Reference.lib sample_four_fields) = None
  /\ List.length [[Some "S1"; Some "01-01-24"; Some "00:00:00"; Some "20.0"; None]]
     = List.length (fst (Lib.tokenize Reference.lib sample_four_fields))
  /\ Forall (fun r => List.length r = 5%nat)
       [[Some "S1"; Some "01-01-24"; Some "00:00:00"; Some "20.0"; None]].
Proof.
  apply (table_is_rectangular Reference.lib sample_four_fields).
  vm_compute. reflexivity.
Defined.

(* ================================================================== *)
(** ** The frame of [process_file] *)







Lemma infer_length lib (cells : list Pandas.cell) :
  column_length (Pandas.infer lib cells) = List.length cells.
Proof.
  destruct (infer_cases lib cells) as [E|[[E _]|[E _]]]; rewrite E; simpl.
  - reflexivity.
  - apply length_map.
  - apply length_map.
Qed.

(** What a returned frame was made of. *)
Lemma process_file_Ok lib network url df :
  process_file lib network url = Ok df ->
  exists response table date_ date_time,
    network url = Some response
    /\ raise_for_status response = Ok tt
    /\ Pandas.read_table lib (text response) = Ok table
    /\ ID df = Pandas.infer lib (Pandas.col 0 table)
    /\ Date df = Pandas.infer lib (Pandas.col 1 table)
    /\ Time_ df = Pandas.infer lib (Pandas.col 2 table)
    /\ Pandas.to_numeric lib (Pandas.infer lib (Pandas.col 3 table)) = Ok (Temp df)
    /\ Pandas.to_numeric lib (Pandas.infer lib (Pandas.col 4 table)) = Ok (Humidity df)
    /\ Pandas.add_str (Pandas.infer lib (Pandas.col 1 table)) " " = Ok date_
    /\ Pandas.add_series date_ (Pandas.infer lib (Pandas.col 2 table)) = Ok date_time
    /\ Pandas.to_datetime lib date_time = Ok (Datetime df).
Proof.
  unfold process_file, requests_get, Pandas.read_csv. intros H.
  destruct (network url) as [response|] eqn:N; [|discriminate].
  simpl in H. repeat bind_inv H. inversion H; subst; simpl. clear H.
  bind_inv Ha0. inversion Ha0; subst a0. simpl in *.
  destruct a. exists response, a6, a3, a4. repeat split; assumption.
Qed.



Lemma cumsum_from_length (l : list Z) : forall acc,
  List.length (Pandas.cumsum_from acc l) = List.length l.
Proof.
  induction l; simpl; intros; [reflexivity|]. rewrite IHl. reflexivity.
Qed.

Lemma hours_length lib network url df :
  process_file lib network url = Ok df ->
  List.length (Cumulative_Hours df) = List.length (Temp df).
Proof.
  intros H.
  pose proof (process_file_same_length lib network url df H) as L.
  destruct (process_file_columns lib network url df H) as [Ed [Ec Eh]].
  rewrite Eh, length_map, Ec. unfold Pandas.cumsum.
  rewrite cumsum_from_length, Ed, fillna_length, diff_length. exact L.
Qed.

(** X4.  Every column of a returned frame has one entry per record: the
    five columns read from the text and the four derived ones. *)
Theorem frame_is_rectangular :
  forall lib network url df,
    process_file lib network url = Ok df ->
    column_length (ID df) = List.length (Temp df)
    /\ column_length (Date df) = List.length (Temp df)
    /\ column_length (Time_ df) = List.length (Temp df)
    /\ List.length (Humidity df) = List.length (Temp df)
    /\ List.length (Datetime df) = List.length (Temp df)
    /\ List.length (Time_Diff df) = List.length (Temp df)
    /\ List.length (Cumulative_Time df) = List.length (Temp df)
    /\ List.length (Cumulative_Hours df) = List.length (Temp df).
Proof.
  intros lib network url df H.
  pose proof (process_file_same_length lib network url df H) as L.
  destruct (process_file_columns lib network url df H) as [Ed [Ec Eh]].
  destruct (process_file_Ok lib network url df H)
    as [response [table [d [dt [N [R [T [Ei [Eda [Eti [Et [Ehu _]]]]]]]]]]]].
  apply to_numeric_infer_length in Et, Ehu.
  rewrite col_length in Et, Ehu.
  assert (Ld : List.length (Time_Diff df) = List.length (Temp df)).
  { rewrite Ed, fillna_length, diff_length. exact L. }
  assert (Lc : List.length (Cumulative_Time df) = List.length (Temp df)).
  { rewrite Ec. unfold Pandas.cumsum. rewrite cumsum_from_length. exact Ld. }
  rewrite Ei, Eda, Eti, !infer_length, !col_length.
  repeat split; try congruence.
  rewrite Eh, length_map. exact Lc.
Qed.

Lemma frame_is_rectangular_witness :
  column_length (ID sample_frame) = List.length (Temp sample_frame)
  /\ column_length (Date sample_frame) = List.length (Temp sample_frame)
  /\ column_length (Time_ sample_frame) = List.length (Temp sample_frame)
  /\ List.length (Humidity sample_frame) = List.length (Temp sample_frame)
  /\ List.length (Datetime sample_frame) = List.length (Temp sample_frame)
  /\ List.length (Time_Diff sample_frame) = List.length (Temp sample_frame)
  /\ List.length (Cumulative_Time sample_frame) = List.length (Temp sample_frame)
  /\ List.length (Cumulative_Hours sample_frame) = List.length (Temp sample_frame).
Proof.
  apply (frame_is_rectangular Reference.lib fileserv
           "https://fileserv.c-probe.in/M1_S1.txt" sample_frame).
  vm_compute. reflexivity.
Defined.

Lemma cumsum_from_present (l : list Z) : forall first prev,
  Pandas.cumsum_from (prev - first)
    (Pandas.fillna 0 (Pandas.diff_from (Some prev) (map Some l)))
  = map (fun t => t - first) l.
Proof.
  induction l as [|t l IH]; simpl; intros first prev.
  - reflexivity.
  - replace (prev - first + (t - prev)) with (t - first) by lia.
    rewrite IH. reflexivity.
Qed.

(** X5.  When every record of a returned frame has a timestamp, the
    cumulative time of a record is its timestamp minus the timestamp of
    the first record, whatever the order of the timestamps in between. *)
Theorem cumulative_time_since_first_record :
  forall lib network url df ts,
    process_file lib network url = Ok df ->
    Datetime df = map Some ts ->
    Cumulative_Time df = map (fun t => t - hd 0 ts) ts.
Proof.
  intros lib network url df ts H D.
  destruct (process_file_columns lib network url df H) as [Ed [Ec _]].
  rewrite Ec, Ed, D. destruct ts as [|first ts]; [reflexivity|].
  simpl. unfold Pandas.cumsum. simpl. f_equal; [lia|].
  replace 0 with (first - first) at 1 by lia.
  apply cumsum_from_present.
Qed.

Lemma cumulative_time_since_first_record_witness :
  Cumulative_Time sample_frame
  = map (fun t => t - hd 0 [1704067200; 1704070800; 1704078000])
        [1704067200; 1704070800; 1704078000].
Proof.
  apply (cumulative_time_since_first_record Reference.lib fileserv
           "https://fileserv.c-probe.in/M1_S1.txt" sample_frame).
  - vm_compute. reflexivity.
  - reflexivity.
Defined.

(** X6.  In a returned frame the cumulative hours of a record differ from
    its cumulative time in hours by at most half a hundredth, up to the
    float64 rounding of the division, of the scaling by a hundred and of
    the division by a hundred: five relative roundings of the hours and
    one unit roundoff. *)
Theorem cumulative_hours_error_bound :
  forall lib network url df i c,
    process_file lib network url = Ok df ->
    nth_error (Cumulative_Time df) i = Some c ->
    exists h,
      nth_error (Cumulative_Hours df) i = Some h
      /\ (Qabs (h - inject_Z c / 3600)
          <= (1 # 200)
             + (5 * Qabs (inject_Z c / 3600) + 1) * Float64.unit_roundoff)%Q.
Proof.
  intros lib network url df i c H C.
  destruct (process_file_columns lib network url df H) as [_ [_ Eh]].
  exists (Pandas.round (Pandas.truediv (inject_Z c) 3600) 2). split.
  - rewrite Eh, nth_error_map, C. reflexivity.
  - apply hours_error.
Qed.

Lemma cumulative_hours_error_bound_witness :
  exists h,
    nth_error (Cumulative_Hours frame_1962) 1 = Some h
    /\ (Qabs (h - inject_Z 1962 / 3600)
        <= (1 # 200)
           + (5 * Qabs (inject_Z 1962 / 3600) + 1) * Float64.unit_roundoff)%Q.
Proof.
  apply (cumulative_hours_error_bound Reference.lib fileserv
           "https://fileserv.c-probe.in/M10_S10.txt" frame_1962 1%nat 1962).
  - vm_compute. reflexivity.
  - reflexivity.
Defined.

(* ================================================================== *)
(** ** The exceptions of [process_file] and of the summary *)

Lemma read_csv_exception lib (s : string) (e : exception) :
  Pandas.read_csv lib s = Raise e -> pandas_exception e.
Proof.
  unfold Pandas.read_csv, Pandas.read_table.
  destruct (Lib.tokenize lib s) as [lines error].
  destruct (Pandas.first_bad _ (tl lines)) as [e0|] eqn:B; simpl.
  - intros H. inversion H; subst.
    apply first_bad_inv in B. destruct B as [r [_ [_ ->]]]. exact I.
  - destruct error; simpl; [|discriminate].
    intros H. inversion H. exact I.
Qed.

Lemma to_numeric_exception lib (c : Pandas.column) (e : exception) :
  Pandas.to_numeric lib c = Raise e -> pandas_exception e.
Proof.
  destruct c as [v|v|v]; simpl; try discriminate.
  intros H. apply mapM_Raise in H. destruct H as [a [_ H]].
  destruct a as [s|]; simpl in H; [|discriminate].
  destruct (Lib.to_number lib s); inversion H. exact I.
Qed.

Lemma add_str_exception (c : Pandas.column) (s : string) (e : exception) :
  Pandas.add_str c s = Raise e -> pandas_exception e.
Proof.
  intros H. apply add_str_Raise in H. subst. exact I.
Qed.

Lemma add_series_exception (l : list Pandas.cell) (c : Pandas.column) (e : exception) :
  Pandas.add_series l c = Raise e -> pandas_exception e.
Proof.
  intros H. apply add_series_Raise in H. subst. exact I.
Qed.

Lemma to_datetime_exception lib (l : list Pandas.cell) (e : exception) :
  Pandas.to_datetime lib l = Raise e -> pandas_exception e.
Proof.
  intros H. apply to_datetime_Raise in H. destruct H as [s ->]. exact I.
Qed.

Lemma raise_for_status_cases (response : Response) :
  (raise_for_status response = Ok tt
   /\ ~ (400 <= status_code response < 600))
  \/ (raise_for_status response = Raise (HTTPError (status_code response))
      /\ 400 <= status_code response < 600).
Proof.
  unfold raise_for_status.
  destruct (((400 <=? status_code response) && (status_code response <? 500))
            || ((500 <=? status_code response) && (status_code response <? 600)))
    eqn:C; [right|left]; (split; [reflexivity|]).
  - apply orb_true_iff in C. destruct C as [C|C];
      apply andb_true_iff in C; destruct C as [A B];
      apply Z.leb_le in A; apply Z.ltb_lt in B; lia.
  - intros [A B]. apply orb_false_iff in C. destruct C as [C1 C2].
    apply andb_false_iff in C1. apply andb_false_iff in C2.
    rewrite Z.leb_gt, Z.ltb_ge in C1, C2. lia.
Qed.

(** Once the text is retrieved, what is raised is raised by pandas. *)
Lemma retrieved_exception lib network url response e :
  network url = Some response ->
  raise_for_status response = Ok tt ->
  process_file lib network url = Raise e ->
  pandas_exception e.
Proof.
  intros N R. rewrite (process_file_retrieved lib network url response N R).
  intros H.
  destruct (Pandas.read_csv lib (text response)) as [df|e0] eqn:E0; simpl in H;
    [|inversion H; subst; exact (read_csv_exception _ _ _ E0)].
  destruct (Pandas.to_numeric lib (Pandas.raw_Temp df)) as [t|e1] eqn:E1; simpl in H;
    [|inversion H; subst; exact (to_numeric_exception _ _ _ E1)].
  destruct (Pandas.to_numeric lib (Pandas.raw_Humidity df)) as [h|e2] eqn:E2; simpl in H;
    [|inversion H; subst; exact (to_numeric_exception _ _ _ E2)].
  destruct (Pandas.add_str (Pandas.raw_Date df) " ") as [d|e3] eqn:E3; simpl in H;
    [|inversion H; subst; exact (add_str_exception _ _ _ E3)].
  destruct (Pandas.add_series d (Pandas.raw_Time df)) as [dt|e4] eqn:E4; simpl in H;
    [|inversion H; subst; exact (add_series_exception _ _ _ E4)].
  destruct (Pandas.to_datetime lib dt) as [ts|e5] eqn:E5; simpl in H;
    [discriminate|inversion H; subst; exact (to_datetime_exception _ _ _ E5)].
Qed.

(** X7.  An exception of [process_file] is of one of three kinds, and the
    kind tells what happened: [RequestException] exactly when there was no
    response; [HTTPError] with the status of the response exactly when
    that status is from 400 to 599; otherwise an exception of the pandas
    calls, raised on the text of a response whose status passed.  It is
    never the [IndexError] of the summary. *)
Theorem process_file_exceptions :
  forall lib network url e,
    process_file lib network url = Raise e ->
    (e = RequestException /\ network url = None)
    \/ (exists response,
           network url = Some response
           /\ e = HTTPError (status_code response)
           /\ 400 <= status_code response < 600)
    \/ (exists response,
           network url = Some response
           /\ ~ (400 <= status_code response < 600)
           /\ pandas_exception e).
Proof.
  intros lib network url e H.
  destruct (network url) as [response|] eqn:N.
  - right.
    destruct (raise_for_status_cases response) as [[R S]|[R S]].
    + right. exists response. split; [reflexivity|]. split; [exact S|].
      exact (retrieved_exception lib network url response e N R H).
    + left. exists response. split; [reflexivity|]. split; [|exact S].
      unfold process_file, requests_get in H. rewrite N in H. simpl in H.
      rewrite R in H. simpl in H. inversion H. reflexivity.
  - left. split; [|reflexivity].
    unfold process_file, requests_get in H. rewrite N in H. simpl in H.
    inversion H. reflexivity.
Qed.

Lemma process_file_exceptions_witness :
  (HTTPError 404 = RequestException
   /\ fileserv "https://fileserv.c-probe.in/M9_S9.txt" = None)
  \/ (exists response,
         fileserv "https://fileserv.c-probe.in/M9_S9.txt" = Some response
         /\ HTTPError 404 = HTTPError (status_code response)
         /\ 400 <= status_code response < 600)
  \/ (exists response,
         fileserv "https://fileserv.c-probe.in/M9_S9.txt" = Some response
         /\ ~ (400 <= status_code response < 600)
         /\ pandas_exception (HTTPError 404)).
Proof.
  apply (process_file_exceptions Reference.lib fileserv
           "https://fileserv.c-probe.in/M9_S9.txt" (HTTPError 404)).
  vm_compute. reflexivity.
Defined.

Lemma string_app_assoc (a b c : string) :
  ((a ++ b) ++ c = a ++ (b ++ c))%string.
Proof.
  induction a as [|x a IH]; simpl; [reflexivity|]. rewrite IH. reflexivity.
Qed.

Lemma nth_error_cat_cols {A C : Type} (u : Pandas.cell -> A)
    (h : A * Pandas.cell -> C) (a b : nat)
    (table : list (list Pandas.cell)) : forall i r,
  nth_error table i = Some r ->
  nth_error (map h (combine (map u (Pandas.col a table)) (Pandas.col b table))) i
  = Some (h (u (nth a r None), nth b r None)).
Proof.
  unfold Pandas.col. induction table as [|x table IH]; intros i r N.
  - destruct i; discriminate.
  - destruct i as [|i]; simpl in *.
    + inversion N. reflexivity.
    + exact (IH i r N).
Qed.

Lemma existsb_cols_false {A B : Type} (u : Pandas.cell -> A) (v : Pandas.cell -> B)
    (p : A * B -> bool) (a b : nat)
    (table : list (list Pandas.cell)) : forall i r,
  existsb p (combine (map u (Pandas.col a table)) (map v (Pandas.col b table))) = false ->
  nth_error table i = Some r ->
  p (u (nth a r None), v (nth b r None)) = false.
Proof.
  unfold Pandas.col. induction table as [|x table IH]; intros i r E N.
  - destruct i; discriminate.
  - simpl in E. apply orb_false_iff in E. destruct E as [E1 E2].
    destruct i as [|i]; simpl in N.
    + inversion N; subst. exact E1.
    + exact (IH i r E2 N).
Qed.

Lemma mapM_nth {A B : Type} (f : A -> result B) (l : list A) : forall out i a,
  mapM f l = Ok out -> nth_error l i = Some a ->
  exists b, f a = Ok b /\ nth_error out i = Some b.
Proof.
  induction l as [|x l IH]; intros out i a H N.
  - destruct i; discriminate.
  - simpl in H. bind_inv H. bind_inv H. inversion H; subst.
    destruct i as [|i]; simpl in N.
    + inversion N; subst. eauto.
    + exact (IH _ _ _ eq_refl N).
Qed.

(** A column that was not read as strings has a value wherever it has a
    cell. *)
Lemma typed_column_present {V : Type} (v : Pandas.cell -> option V)
    (p : Pandas.cell -> bool) (cells : list Pandas.cell) (s : string) :
  (forall c, p c = true -> c = None \/ exists w, v c = Some w) ->
  forallb p cells = true ->
  In (Some s) cells ->
  exists w, v (Some s) = Some w.
Proof.
  intros P F I. rewrite forallb_forall in F. specialize (F _ I).
  destruct (P _ F) as [E|E]; [discriminate|exact E].
Qed.

Lemma numeric_cell_present lib (c : Pandas.cell) :
  Pandas.numeric_cell lib c = true ->
  c = None \/ exists w, Pandas.cell_value lib c = Some w.
Proof.
  destruct c as [s|]; simpl; [|auto].
  destruct (Lib.read_number lib s); [eauto|discriminate].
Qed.

Lemma bool_cell_present (c : Pandas.cell) :
  Pandas.bool_cell c = true ->
  c = None \/ exists w, Pandas.cell_bool c = Some w.
Proof.
  destruct c as [s|]; simpl; [|auto].
  destruct (Pandas.to_bool s); [eauto|discriminate].
Qed.

(** The timestamps of a returned frame are read from the date and time
    cells of the rows of the table, one by one. *)
Lemma process_file_stamps lib network url df response table :
  process_file lib network url = Ok df ->
  network url = Some response ->
  Pandas.read_table lib (text response) = Ok table ->
  forall i r,
    nth_error table i = Some r ->
    exists t,
      nth_error (Datetime df) i = Some t
      /\ stamps lib (nth 1 r None) (nth 2 r None) t.
Proof.
  intros H N T i r R.
  destruct (process_file_Ok lib network url df H)
    as [response' [table' [d_ [dt [N' [_ [T' [_ [_ [_ [_ [_ [Ea [Es Et]]]]]]]]]]]]]].
  rewrite N in N'. inversion N'; subst response'.
  rewrite T in T'. inversion T'; subst table'. clear N' T'.
  assert (Ed : d_ = map (option_map (fun x => (x ++ " ")%string)) (Pandas.col 1 table)).
  { destruct (infer_cases lib (Pandas.col 1 table)) as [E1|[[E1 _]|[E1 _]]];
      rewrite E1 in Ea; simpl in Ea; try discriminate.
    inversion Ea. reflexivity. }
  subst d_. clear Ea.
  unfold Pandas.to_datetime in Et.
  assert (K : forall V (v : Pandas.cell -> option V) (p : Pandas.cell -> bool),
             (forall c, p c = true -> c = None \/ exists w, v c = Some w) ->
             forallb p (Pandas.col 2 table) = true ->
             (if existsb Pandas.both_present
                   (combine (map (option_map (fun x => (x ++ " ")%string))
                               (Pandas.col 1 table))
                            (map v (Pandas.col 2 table)))
              then Raise TypeError_add
              else Ok (map (fun _ : Pandas.cell => @None string)
                         (map (option_map (fun x => (x ++ " ")%string))
                            (Pandas.col 1 table)))) = Ok dt ->
             exists t, nth_error (Datetime df) i = Some t
                       /\ stamps lib (nth 1 r None) (nth 2 r None) t).
  { intros V v p P F Es'.
    destruct (existsb _ _) eqn:B in Es'; [discriminate|].
    inversion Es'; subst dt. clear Es'.
    pose proof (existsb_cols_false (option_map (fun x => (x ++ " ")%string))
                  v Pandas.both_present 1 2 table i _ B R) as Q.
    assert (J : nth_error
                  (map (fun _ : Pandas.cell => @None string)
                     (map (option_map (fun x => (x ++ " ")%string)) (Pandas.col 1 table)))
                  i = Some None).
    { unfold Pandas.col. rewrite !map_map.
      exact (map_nth_error (fun _ => None) i table R). }
    destruct (mapM_nth (Pandas.to_datetime_cell lib) _ _ i _ Et J) as [b [E Nb]].
    exists b. split; [exact Nb|]. simpl in E. inversion E; subst b.
    unfold stamps.
    destruct (nth 1 r None) as [d|]; [|reflexivity].
    destruct (nth 2 r None) as [t|] eqn:C2; [|reflexivity].
    exfalso.
    assert (I2 : In (Some t) (Pandas.col 2 table)).
    { rewrite <- C2. apply In_col. exact (nth_error_In _ _ R). }
    destruct (typed_column_present v p _ t P F I2) as [w W].
    simpl in Q. rewrite W in Q. discriminate. }
  destruct (infer_cases lib (Pandas.col 2 table)) as [E2|[[E2 F]|[E2 F]]];
    rewrite E2 in Es; simpl in Es.
  - inversion Es; subst dt. clear Es.
    pose proof (nth_error_cat_cols (option_map (fun x => (x ++ " ")%string))
                  Pandas.cat_cells 1 2 table i _ R) as J.
    destruct (mapM_nth (Pandas.to_datetime_cell lib) _ _ i _ Et J) as [b [E Nb]].
    exists b. split; [exact Nb|]. unfold stamps.
    destruct (nth 1 r None) as [d|]; simpl in E; [|inversion E; reflexivity].
    destruct (nth 2 r None) as [t|]; simpl in E; [|inversion E; reflexivity].
    rewrite string_app_assoc in E. simpl in E.
    destruct (Lib.strptime lib (d ++ String " " t)) eqn:P; inversion E.
    subst. exact P.
  - exact (K _ (Pandas.cell_value lib) (Pandas.numeric_cell lib)
             (numeric_cell_present lib) F Es).
  - exact (K _ Pandas.cell_bool Pandas.bool_cell bool_cell_present F Es).
Qed.

(** X8.  When the text was retrieved and read and some line has a date
    and a time that, joined by a space, do not match the format
    [%d-%m-%y %H:%M:%S], [process_file] raises: no frame is returned for
    the other lines. *)
Theorem bad_date_is_fatal :
  forall lib network url response table r d t,
    network url = Some response ->
    raise_for_status response = Ok tt ->
    Pandas.read_table lib (text response) = Ok table ->
    In r table ->
    nth 1 r None = Some d ->
    nth 2 r None = Some t ->
    Lib.strptime lib (d ++ " " ++ t) = None ->
    exists e, process_file lib network url = Raise e /\ pandas_exception e.
Proof.
  intros lib network url response table r d t N R T I Hd Ht P.
  destruct (process_file lib network url) as [df|e] eqn:H.
  - exfalso. apply In_nth_error in I. destruct I as [i I].
    destruct (process_file_stamps lib network url df response table H N T i r I)
      as [ts [_ S]].
    unfold stamps in S. rewrite Hd, Ht in S. congruence.
  - exists e. split; [reflexivity|].
    exact (retrieved_exception lib network url response e N R H).
Qed.

Lemma bad_date_is_fatal_witness :
  exists e,
    process_file Reference.lib (serve_only sample_bad_date)
      "https://fileserv.c-probe.in/M1_S1.txt"
    = Raise e
    /\ pandas_exception e.
Proof.
  apply (bad_date_is_fatal Reference.lib (serve_only sample_bad_date)
           "https://fileserv.c-probe.in/M1_S1.txt"
           {| status_code := 200; text := sample_bad_date |}
           [[Some "S1"; Some "2024-01-01"; Some "00:00:00"; Some "20.0"; Some "50.0"]]
           [Some "S1"; Some "2024-01-01"; Some "00:00:00"; Some "20.0"; Some "50.0"]
           "2024-01-01" "00:00:00").
  - reflexivity.
  - reflexivity.
  - vm_compute. reflexivity.
  - simpl. auto.
  - reflexivity.
  - reflexivity.
  - vm_compute. reflexivity.
Defined.

Lemma max_None (temps : list (option Number.t)) :
  (forall i q, nth_error temps i <> Some (Some q)) -> Pandas.max temps = None.
Proof.
  intros A. pose proof (max_spec temps) as M.
  destruct (Pandas.max temps) as [hi|]; [|reflexivity].
  destruct M as [I _]. apply In_nth_error in I. destruct I as [i I].
  exfalso. exact (A i hi I).
Qed.

(** X9.  The summary of a returned frame raises exactly when no record
    has a temperature (the frame is empty, or every temperature is
    missing), and the exception is then the [IndexError] of [.iloc[0]];
    it raises nothing else. *)
Theorem extrema_raise_iff_no_temperature :
  forall lib network url df,
    process_file lib network url = Ok df ->
    ((exists e, extrema df = Raise e)
     <-> (forall i q, nth_error (Temp df) i <> Some (Some q)))
    /\ (forall e, extrema df = Raise e -> e = IndexError).
Proof.
  intros lib network url df H. split; [split|].
  - intros [e E] i q Hq.
    destruct (extrema_spec df (process_file_same_length lib network url df H))
      as [hi [t_hi [lo [t_lo [X _]]]]]; [eauto|].
    congruence.
  - intros A. exists IndexError. unfold extrema.
    rewrite (max_None _ A), loc_eq_None. reflexivity.
  - intros e. unfold extrema.
    destruct (Pandas.loc (Pandas.eq (Temp df) (Pandas.max (Temp df))) (Datetime df));
      simpl; [intros E; inversion E; reflexivity|].
    destruct (Pandas.loc (Pandas.eq (Temp df) (Pandas.min (Temp df))) (Datetime df));
      simpl; [intros E; inversion E; reflexivity|discriminate].
Qed.

Lemma extrema_raise_iff_no_temperature_witness :
  ((exists e, extrema empty_frame = Raise e)
   <-> (forall i q, nth_error (Temp empty_frame) i <> Some (Some q)))
  /\ (forall e, extrema empty_frame = Raise e -> e = IndexError).
Proof.
  apply (extrema_raise_iff_no_temperature Reference.lib fileserv
           "https://fileserv.c-probe.in/M8_S8.txt" empty_frame).
  vm_compute. reflexivity.
Defined.

(* ================================================================== *)
(** ** The outputs of the callback *)

(** X10.  The three outputs of a returning invocation are of one of three
    shapes: the table, possibly with one row appended at its end, with the
    empty figure and the empty text; the table as it was, a figure and the
    empty text; the table as it was, the empty figure and a summary.  So
    rows are never removed or changed, and a plot and a summary are never
    returned together: each request resets the output of the other. *)
Theorem outputs_by_branch :
  forall lib network triggered update_clicks plot_clicks summary_clicks
         meter_id sensor_id legend color existing_data title data fig ch,
    update_table_and_plot lib network triggered
      update_clicks plot_clicks summary_clicks
      meter_id sensor_id legend color existing_data title
    = Ok (data, fig, ch) ->
    (fig = EmptyFigure /\ ch = EmptyText
     /\ (data = existing_data
         \/ (data = existing_data ++ [ {| Row.meter_id := meter_id;
                                          Row.sensor_id := sensor_id;
                                          Row.legend := legend;
                                          Row.color := color |} ]
             /\ trigger_of triggered = Some "update-table")))
    \/ (data = existing_data /\ ch = EmptyText
        /\ trigger_of triggered = Some "plot-graph"
        /\ exists traces layout, fig = Figure traces layout)
    \/ (data = existing_data /\ fig = EmptyFigure
        /\ trigger_of triggered = Some "show-summary"
        /\ exists max_temp_info min_temp_info,
             ch = SummaryDiv max_temp_info min_temp_info).
Proof.
  intros lib network triggered u p sc m s l c existing t data fig ch.
  unfold update_table_and_plot, trigger_of.
  destruct triggered as [|prop_id rest].
  - intros H. inversion H. left. auto.
  - destruct (String.eqb_spec (hd "" (Py.split "." prop_id)) "update-table") as [E1|N1].
    + rewrite E1. destruct (0 <? u); simpl.
      * destruct (Py.truthy m && Py.truthy s && Py.truthy l);
          intros H; inversion H; left; auto.
      * intros H. inversion H. left. auto.
    + simpl.
      destruct (String.eqb_spec (hd "" (Py.split "." prop_id)) "plot-graph") as [E2|N2].
      * rewrite E2. destruct (0 <? p); simpl.
        -- intros H. bind_inv H. inversion H. right. left. eauto 10.
        -- intros H. inversion H. left. auto.
      * simpl.
        destruct (String.eqb_spec (hd "" (Py.split "." prop_id)) "show-summary") as [E3|N3].
        -- rewrite E3. destruct (0 <? sc); simpl.
           ++ intros H. bind_inv H. destruct a as [mx mn]. inversion H.
              right. right. eauto 10.
           ++ intros H. inversion H. left. auto.
        -- simpl. intros H. inversion H. left. auto.
Qed.

Lemma outputs_by_branch_witness :
  (Figure [sample_trace] (layout_of None) = EmptyFigure
   /\ EmptyText = EmptyText
   /\ ([series "M1" "S1" "one"] = [series "M1" "S1" "one"]
       \/ ([series "M1" "S1" "one"]
           = [series "M1" "S1" "one"]
             ++ [ {| Row.meter_id := None; Row.sensor_id := None;
                     Row.legend := None; Row.color := None |} ]
           /\ trigger_of ["plot-graph.n_clicks"] = Some "update-table")))
  \/ ([series "M1" "S1" "one"] = [series "M1" "S1" "one"] /\ EmptyText = EmptyText
      /\ trigger_of ["plot-graph.n_clicks"] = Some "plot-graph"
      /\ exists traces layout,
           Figure [sample_trace] (layout_of None) = Figure traces layout)
  \/ ([series "M1" "S1" "one"] = [series "M1" "S1" "one"]
      /\ Figure [sample_trace] (layout_of None) = EmptyFigure
      /\ trigger_of ["plot-graph.n_clicks"] = Some "show-summary"
      /\ exists max_temp_info min_temp_info,
           EmptyText = SummaryDiv max_temp_info min_temp_info).
Proof.
  apply (outputs_by_branch Reference.lib fileserv ["plot-graph.n_clicks"] 0 1 0
           None None None None [series "M1" "S1" "one"] None).
  vm_compute. reflexivity.
Defined.

(** X11.  An invocation with nothing to do returns the table as it was,
    the empty figure and the empty text, without processing any file: when
    nothing triggered it, when no click count is positive, or when the
    triggering component is none of the three buttons. *)
Theorem idle_invocation :
  forall lib network triggered update_clicks plot_clicks summary_clicks
         meter_id sensor_id legend color existing_data title,
    trigger_of triggered = None
    \/ (update_clicks <= 0 /\ plot_clicks <= 0 /\ summary_clicks <= 0)
    \/ (exists trigger,
           trigger_of triggered = Some trigger
           /\ trigger <> "update-table"
           /\ trigger <> "plot-graph"
           /\ trigger <> "show-summary") ->
    update_table_and_plot lib network triggered
      update_clicks plot_clicks summary_clicks
      meter_id sensor_id legend color existing_data title
    = Ok (existing_data, EmptyFigure, EmptyText).
Proof.
  intros lib network triggered u p sc m s l c existing t.
  unfold update_table_and_plot, trigger_of.
  destruct triggered as [|prop_id rest]; [reflexivity|].
  intros [H|[[Hu [Hp Hs]]|[trigger [H [N1 [N2 N3]]]]]].
  - discriminate.
  - apply Z.ltb_ge in Hu, Hp, Hs. rewrite Hu, Hp, Hs.
    rewrite !andb_false_r. reflexivity.
  - inversion H as [E]. rewrite E.
    apply String.eqb_neq in N1, N2, N3. rewrite N1, N2, N3. reflexivity.
Qed.

Lemma idle_invocation_witness :
  update_table_and_plot Reference.lib fileserv ["graph-title.value"] 3 2 1
    (Some "M1") (Some "S1") (Some "one") None [series "M9" "S9" "gone"] None
  = Ok ([series "M9" "S9" "gone"], EmptyFigure, EmptyText).
Proof.
  apply (idle_invocation Reference.lib fileserv ["graph-title.value"] 3 2 1
           (Some "M1") (Some "S1") (Some "one") None [series "M9" "S9" "gone"] None).
  right. right. exists "graph-title".
  split; [reflexivity|]. repeat split; discriminate.
Defined.

Lemma plot_figure_inv lib network triggered update_clicks plot_clicks summary_clicks
    meter_id sensor_id legend color existing_data title data traces layout ch :
  update_table_and_plot lib network triggered
    update_clicks plot_clicks summary_clicks
    meter_id sensor_id legend color existing_data title
  = Ok (data, Figure traces layout, ch) ->
  plot_loop lib network existing_data [] = Ok traces
  /\ layout = layout_of title.
Proof.
  unfold update_table_and_plot.
  destruct triggered as [|prop_id rest]; [discriminate|].
  destruct (String.eqb (hd "" (Py.split "." prop_id)) "update-table" && (0 <? update_clicks)).
  - destruct (Py.truthy meter_id && Py.truthy sensor_id && Py.truthy legend);
      discriminate.
  - destruct (String.eqb (hd "" (Py.split "." prop_id)) "plot-graph" && (0 <? plot_clicks)).
    + intros H. bind_inv H. inversion H; subst. auto.
    + destruct (String.eqb (hd "" (Py.split "." prop_id)) "show-summary"
                && (0 <? summary_clicks)).
      * intros H. bind_inv H. destruct a. discriminate.
      * discriminate.
Qed.

(** X12.  The title of a returned figure is the graph title when that is
    a non-empty string, and [Temperature Profile] when it is empty or
    absent; the x axis is always titled [Cumulative Time (Hours)]. *)
Theorem figure_title_fallback :
  forall lib network triggered update_clicks plot_clicks summary_clicks
         meter_id sensor_id legend color existing_data graph_title
         data traces layout ch,
    update_table_and_plot lib network triggered
      update_clicks plot_clicks summary_clicks
      meter_id sensor_id legend color existing_data graph_title
    = Ok (data, Figure traces layout, ch) ->
    (nonempty graph_title -> Some (title layout) = graph_title)
    /\ (~ nonempty graph_title -> title layout = "Temperature Profile")
    /\ xaxis_title layout = "Cumulative Time (Hours)".
Proof.
  intros lib network triggered u p sc m s l c existing t data traces layout ch H.
  apply plot_figure_inv in H. destruct H as [_ ->]. simpl.
  repeat split.
  - intros N. pose proof N as T. apply truthy_nonempty in T. rewrite T.
    destruct N as [x [-> _]]. reflexivity.
  - intros N. destruct (Py.truthy t) eqn:T; [|reflexivity].
    apply truthy_nonempty in T. contradiction.
Qed.

Lemma figure_title_fallback_witness :
  (nonempty (Some "") -> Some (title (layout_of (Some ""))) = Some "")
  /\ (~ nonempty (Some "") -> title (layout_of (Some "")) = "Temperature Profile")
  /\ xaxis_title (layout_of (Some "")) = "Cumulative Time (Hours)".
Proof.
  apply (figure_title_fallback Reference.lib fileserv ["plot-graph.n_clicks"] 0 1 0
           None None None None [] (Some "") [] [] (layout_of (Some "")) EmptyText).
  vm_compute. reflexivity.
Defined.

Lemma trace_of_columns lib row df tr :
  trace_of lib row df = Ok tr ->
  x tr = Cumulative_Hours df /\ y tr = Temp df
  /\ name tr = Row.legend row /\ line_color tr = Row.color row.
Proof.
  unfold trace_of. destruct (Lib.valid_color lib (Row.color row)); [|discriminate].
  intros H. inversion H. simpl. auto.
Qed.

(** X13.  A returned figure has one trace per row of the table, and in
    every trace the x values (cumulative hours) and the y values
    (temperatures) are equally many. *)
Theorem traces_are_well_formed :
  forall lib network triggered update_clicks plot_clicks summary_clicks
         meter_id sensor_id legend color existing_data title
         data traces layout ch,
    update_table_and_plot lib network triggered
      update_clicks plot_clicks summary_clicks
      meter_id sensor_id legend color existing_data title
    = Ok (data, Figure traces layout, ch) ->
    List.length traces = List.length existing_data
    /\ Forall (fun tr => List.length (x tr) = List.length (y tr)) traces.
Proof.
  intros lib network triggered u p sc m s l c existing t data traces layout ch H.
  apply plot_figure_inv in H. destruct H as [H _].
  apply plot_loop_Ok in H. destruct H as [new [-> F]]. simpl.
  split.
  - symmetry. exact (Forall2_length F).
  - clear -F. induction F as [|row tr rows trs [df [P T]] F IH]; constructor.
    + apply trace_of_columns in T. destruct T as [-> [-> _]].
      exact (hours_length lib network _ df P).
    + exact IH.
Qed.

Lemma traces_are_well_formed_witness :
  List.length [sample_trace] = List.length [series "M1" "S1" "one"]
  /\ Forall (fun tr => List.length (x tr) = List.length (y tr)) [sample_trace].
Proof.
  apply (traces_are_well_formed Reference.lib fileserv ["plot-graph.n_clicks"] 0 1 0
           None None None None [series "M1" "S1" "one"] None
           [series "M1" "S1" "one"] [sample_trace] (layout_of None) EmptyText).
  vm_compute. reflexivity.
Defined.

(* ================================================================== *)
(** ** Requests over a growing table *)

Lemma plot_loop_app lib network rows more : forall acc,
  plot_loop lib network (rows ++ more) acc
  = (traces <- plot_loop lib network rows acc ;; plot_loop lib network more traces).
Proof.
  induction rows as [|r rows IH]; simpl; intros acc.
  - reflexivity.
  - destruct (process_file lib network _) as [df|e]; simpl; [|reflexivity].
    destruct (trace_of lib r df) as [tr|e]; simpl; [apply IH|reflexivity].
Qed.

(** X14.  Plotting after a row was appended to the table: when the plot
    of the former table returned, the new figure has the same traces in
    the same order followed by the trace of the new row, under the same
    layout, provided that the file of the new row is processed and its
    color accepted; when the file of the new row cannot be processed the
    request raises that exception, and when its color is not accepted the
    request raises the error of [go.Scatter], although all the former rows
    were traced. *)
Theorem plot_after_append :
  forall lib network more update_clicks plot_clicks summary_clicks
         meter_id sensor_id legend color title rows row traces layout ch,
    0 < plot_clicks ->
    on_plot lib network more update_clicks plot_clicks summary_clicks
      meter_id sensor_id legend color title rows
    = Ok (rows, Figure traces layout, ch) ->
    (forall tr,
        traced lib network row tr ->
        on_plot lib network more update_clicks plot_clicks summary_clicks
          meter_id sensor_id legend color title (rows ++ [row])
        = Ok (rows ++ [row], Figure (traces ++ [tr]) layout, ch))
    /\ (forall e,
           process_file lib network (url_of row) = Raise e ->
           on_plot lib network more update_clicks plot_clicks summary_clicks
             meter_id sensor_id legend color title (rows ++ [row])
           = Raise e)
    /\ (forall df,
           process_file lib network (url_of row) = Ok df ->
           Lib.valid_color lib (Row.color row) = false ->
           on_plot lib network more update_clicks plot_clicks summary_clicks
             meter_id sensor_id legend color title (rows ++ [row])
           = Raise (ValueError_color (Row.color row))).
Proof.
  intros lib network more u p sc m s l c t rows row traces layout ch Hp H.
  rewrite (on_plot_eq lib network more u p sc m s l c t rows Hp) in H.
  rewrite (on_plot_eq lib network more u p sc m s l c t (rows ++ [row]) Hp).
  bind_inv H. inversion H; subst. clear H.
  rewrite plot_loop_app, Ha. simpl. fold (url_of row).
  repeat split.
  - intros tr [df [P T]]. rewrite P. simpl. rewrite T. reflexivity.
  - intros e E. rewrite E. reflexivity.
  - intros df P V. rewrite P. simpl. unfold trace_of. rewrite V. reflexivity.
Qed.

Lemma plot_after_append_witness :
  exists tr,
    traced Reference.lib fileserv (series "M2" "S2" "two") tr
    /\ on_plot Reference.lib fileserv [] 0 1 0 None None None None None
         ([series "M1" "S1" "one"] ++ [series "M2" "S2" "two"])
       = Ok ([series "M1" "S1" "one"] ++ [series "M2" "S2" "two"],
             Figure ([sample_trace] ++ [tr]) (layout_of None),
             EmptyText).
Proof.
  assert (T : exists tr, traced Reference.lib fileserv (series "M2" "S2" "two") tr).
  { eexists. eexists. split; vm_compute; reflexivity. }
  destruct T as [tr T]. exists tr. split; [exact T|].
  apply (proj1 (plot_after_append Reference.lib fileserv [] 0 1 0
                  None None None None None
                  [series "M1" "S1" "one"] (series "M2" "S2" "two")
                  [sample_trace] (layout_of None)
                  EmptyText ltac:(lia) ltac:(vm_compute; reflexivity))).
  exact T.
Defined.

Lemma summary_loop_In_Raise lib network rows : forall info row e,
  In row rows ->
  process_file lib network (url_of row) = Raise e
  \/ (exists df, process_file lib network (url_of row) = Ok df
                 /\ extrema df = Raise e) ->
  exists e', summary_loop lib network rows info = Raise e'.
Proof.
  induction rows as [|r rows IH]; simpl; intros info row e I F.
  - contradiction.
  - fold (url_of r). destruct I as [->|I].
    + destruct F as [F|[df [P X]]].
      * rewrite F. simpl. eauto.
      * rewrite P. simpl. rewrite X. simpl. eauto.
    + destruct (process_file lib network (url_of r)) as [df|e0]; simpl; [|eauto].
      destruct (extrema df) as [[[[M tM] mn] tm]|e1]; simpl; [|eauto].
      exact (IH _ row e I F).
Qed.

(** X15.  A summary request raises as soon as one series of the table
    cannot be processed or has no extrema, also when that series is not
    the last one, whose extrema alone would be shown. *)
Theorem summary_needs_every_series :
  forall lib network more update_clicks plot_clicks summary_clicks
         meter_id sensor_id legend color title rows row e,
    0 < summary_clicks ->
    In row rows ->
    process_file lib network (url_of row) = Raise e
    \/ (exists df, process_file lib network (url_of row) = Ok df
                   /\ extrema df = Raise e) ->
    exists e',
      on_summary lib network more update_clicks plot_clicks summary_clicks
        meter_id sensor_id legend color title rows = Raise e'.
Proof.
  intros lib network more u p sc m s l c t rows row e Hs I F.
  rewrite (on_summary_eq lib network more u p sc m s l c t rows Hs).
  destruct (summary_loop_In_Raise lib network rows (None, None) row e I F) as [e' E].
  rewrite E. simpl. eauto.
Qed.

Lemma summary_needs_every_series_witness :
  exists e',
    on_summary Reference.lib fileserv [] 0 0 1 None None None None None
      [series "M8" "S8" "empty"; series "M1" "S1" "one"] = Raise e'.
Proof.
  apply (summary_needs_every_series Reference.lib fileserv [] 0 0 1
           None None None None None
           [series "M8" "S8" "empty"; series "M1" "S1" "one"]
           (series "M8" "S8" "empty") IndexError).
  - lia.
  - simpl. auto.
  - right. exists empty_frame. split; vm_compute; reflexivity.
Defined.

(** X18.  Over an empty table nothing is fetched: a plot request returns
    a figure with no trace, and a summary request returns a summary whose
    two lines are both [None]. *)
Theorem requests_over_empty_table :
  forall lib network more update_clicks plot_clicks summary_clicks
         meter_id sensor_id legend color title,
    (0 < plot_clicks ->
     exists layout,
       on_plot lib network more update_clicks plot_clicks summary_clicks
         meter_id sensor_id legend color title []
       = Ok ([], Figure [] layout, EmptyText))
    /\ (0 < summary_clicks ->
        on_summary lib network more update_clicks plot_clicks summary_clicks
          meter_id sensor_id legend color title []
        = Ok ([], EmptyFigure, SummaryDiv None None)).
Proof.
  intros lib network more u p sc m s l c t. split; intros H.
  - rewrite (on_plot_eq lib network more u p sc m s l c t [] H). simpl. eauto.
  - rewrite (on_summary_eq lib network more u p sc m s l c t [] H). reflexivity.
Qed.

Lemma requests_over_empty_table_witness :
  on_summary Reference.lib fileserv [] 0 0 1 None None None None None []
  = Ok ([], EmptyFigure, SummaryDiv None None).
Proof.
  apply (proj2 (requests_over_empty_table Reference.lib fileserv [] 0 0 1
                  None None None None None)).
  lia.
Defined.

(* ================================================================== *)
(** ** The trigger and the URL *)

Lemma hd_split_cons (sep c : ascii) (s : string) :
  Ascii.eqb sep c = false ->
  hd "" (Py.split sep (String c s)) = String c (hd "" (Py.split sep s)).
Proof.
  intros H. unfold Py.split. simpl. rewrite H.
  pose proof (split_by_nonempty (Ascii.eqb sep) s) as N.
  destruct (Py.split_by (Ascii.eqb sep) s); [contradiction|reflexivity].
Qed.

(** X16.  The trigger that the callback dispatches on is the component id
    of the property that fired, whatever the property: for an id without a
    dot, the part of [id.property] before the first dot is the id. *)
Theorem trigger_is_component_id :
  forall (id property : string) (rest : list string),
    dotless id ->
    trigger_of ((id ++ "." ++ property)%string :: rest) = Some id.
Proof.
  intros id property rest D. unfold trigger_of. f_equal.
  induction id as [|c id IH]; simpl in *.
  - reflexivity.
  - destruct D as [Hc D]. rewrite (hd_split_cons "." c _ Hc).
    f_equal. exact (IH D).
Qed.

Lemma trigger_is_component_id_witness :
  trigger_of (("show-summary" ++ "." ++ "n_clicks")%string :: [])
  = Some "show-summary".
Proof.
  apply (trigger_is_component_id "show-summary" "n_clicks" []).
  simpl. repeat split.
Defined.

(** X17.  The URL does not determine the meter and sensor it was built
    from: an underscore may belong to either id, and an absent id is
    written as the string [None]. *)
Theorem url_is_ambiguous :
  forall a b c : string,
    file_url_of (Some (a ++ "_" ++ b)%string) (Some c)
    = file_url_of (Some a) (Some (b ++ "_" ++ c)%string)
    /\ file_url_of None (Some c) = file_url_of (Some "None") (Some c)
    /\ file_url_of (Some a) None = file_url_of (Some a) (Some "None").
Proof.
  intros a b c. unfold file_url_of, Py.str. repeat split.
  f_equal. rewrite !string_app_assoc. reflexivity.
Qed.

(* ================================================================== *)
(** ** From the fields of a line to the record *)

(** A cell of a padded line is the field at that place, an absent field
    being read like an empty one. *)
Lemma nth_pad (width j : nat) (line : list string) :
  nth j (Pandas.pad width (map Pandas.to_cell line)) None
  = Pandas.to_cell (nth j line "").
Proof.
  unfold Pandas.pad.
  destruct (Nat.lt_ge_cases j (List.length line)) as [L|G].
  - rewrite app_nth1 by (rewrite length_map; exact L).
    change None with (Pandas.to_cell "") at 1. apply map_nth.
  - rewrite app_nth2 by (rewrite length_map; exact G).
    rewrite (nth_overflow line) by exact G.
    rewrite nth_repeat. reflexivity.
Qed.

(** The row of a line in a text whose lines have at most five fields. *)
Lemma short_lines_row lib network url response lines error df i line :
  network url = Some response ->
  Lib.tokenize lib (text response) = (lines, error) ->
  (forall r, In r lines -> (List.length r <= 5)%nat) ->
  process_file lib network url = Ok df ->
  nth_error lines i = Some line ->
  exists table,
    Pandas.read_table lib (text response) = Ok table
    /\ nth_error table i = Some (Pandas.pad 5 (map Pandas.to_cell line)).
Proof.
  intros N T A H L.
  destruct (process_file_Ok lib network url df H)
    as [response' [table [d [dt [N' [_ [Tb _]]]]]]].
  rewrite N in N'. inversion N'; subst response'. clear N'.
  exists table. split; [exact Tb|].
  pose proof Tb as Tb'. apply read_table_Ok in Tb'.
  destruct Tb' as [lines' [T' _]].
  rewrite T in T'. inversion T'; subst lines' error. clear T'.
  rewrite (read_table_short_lines lib _ lines T A) in Tb.
  inversion Tb; subst table. rewrite nth_error_map, L. reflexivity.
Qed.



(** X20.  In a text whose lines have at most five fields, the timestamp
    of record [i] of the returned frame is read from the second and third
    field of the [i]-th line that the tokenizer completed: the timestamp of
    the date and the time joined by a space, matched against the format
    [%d-%m-%y %H:%M:%S], when both are present, and missing when either is
    absent or a marker of a missing value. *)
Theorem record_timestamp_of_line :
  forall lib network url response lines error df i line,
    network url = Some response ->
    Lib.tokenize lib (text response) = (lines, error) ->
    (forall r, In r lines -> (List.length r <= 5)%nat) ->
    process_file lib network url = Ok df ->
    nth_error lines i = Some line ->
    exists t,
      nth_error (Datetime df) i = Some t
      /\ stamps lib (Pandas.to_cell (nth 1 line "")) (Pandas.to_cell (nth 2 line "")) t.
Proof.
  intros lib network url response lines error df i line N T A H L.
  destruct (short_lines_row lib network url response lines error df i line N T A H L)
    as [table [Tb R]].
  destruct (process_file_stamps lib network url df response table H N Tb i _ R)
    as [t [Nt S]].
  rewrite !nth_pad in S. eauto.
Qed.

Lemma record_timestamp_of_line_witness :
  exists t,
    nth_error (Datetime sample_frame) 1 = Some t
    /\ stamps Reference.lib
         (Pandas.to_cell (nth 1 ["S1"; "01-01-24"; "01:00:00"; "25.0"; "55.0"] ""))
         (Pandas.to_cell (nth 2 ["S1"; "01-01-24"; "01:00:00"; "25.0"; "55.0"] ""))
         t.
Proof.
  apply (record_timestamp_of_line Reference.lib fileserv
           "https://fileserv.c-probe.in/M1_S1.txt"
           {| status_code := 200; text := sample |}
           [["S1"; "01-01-24"; "00:00:00"; "20.0"; "50.0"];
            ["S1"; "01-01-24"; "01:00:00"; "25.0"; "55.0"];
            ["S1"; "01-01-24"; "03:00:00"; "22.0"; "52.0"]]
           None sample_frame 1%nat
           ["S1"; "01-01-24"; "01:00:00"; "25.0"; "55.0"]).
  - reflexivity.
  - vm_compute. reflexivity.
  - intros r [<-|[<-|[<-|[]]]]; simpl; lia.
  - vm_compute. reflexivity.
  - reflexivity.
Defined.
